(** * vecnopool-payment: the payout cycle, its store and its scheduler

    A shallow embedding of

      - [src/database/index.ts]  (class [Database], over a [pg] client),
      - [src/trxs/index.ts]      (class [trxManager]: [transferBalances],
                                  [send]),
      - the two variants of the entry point [index.ts]: the one that
        counts the payout cadence in hours and the one that counts it in
        minutes,

    followed by the properties of the payout cycle, of the statements of
    [Database] (the payment history among them), of the schedule and the
    progress line, and of the startup of the entry point.

    Asynchronous code is embedded as a tree of calls to the outside world
    (the [pg] client, the ledger's wasm bindings, timers, the monitor):
    every call carries the continuation that receives its answer.  The
    same tree is run to completion ([run]) for the properties of one
    cycle, and step by step between suspension points ([exec]) for the
    properties of overlapping cycles.

    Lines written through [monitoring.debug] are guarded by [DEBUG] and
    only trace; they are left out. *)

From Stdlib Require Import List String ZArith Lia Bool.
Import ListNotations.

Open Scope string_scope.
Open Scope list_scope.
Open Scope Z_scope.

(** ** Values *)

(** What a [throw] carries: the code only formats it into a log line. *)
Definition Error := string.

(** A settled promise, or the result of a block that may throw. *)
Inductive Outcome (A : Type) : Type :=
| Returned (a : A)
| Thrown (e : Error).
Arguments Returned {A} a.
Arguments Thrown {A} e.

(** JavaScript truthiness of a [string | undefined]. *)
Definition truthy (s : option string) : bool :=
  match s with
  | None => false
  | Some v => negb (String.eqb v "")
  end.

(** ** The store: the two relations the [pg] client sees *)

(** [type PoolBalanceRow].  The column [available_balance] is numeric and
    holds an amount in sompi; [pg] hands it over as decimal text and
    [BigInt] reads the text back, so the row keeps the integer. *)
Module PoolBalanceRow.
Record t : Type := mk
  { address : string;
    available_balance : Z }.
End PoolBalanceRow.

(** [type PaymentRow].  [id] is given by the relation on insert; the model
    numbers the rows in insertion order. *)
Module PaymentRow.
Record t : Type := mk
  { id : Z;
    address : string;
    amount : Z;
    tx_id : string;
    timestamp : Z;
    notified : bool }.
End PaymentRow.

Record Tables : Type := mkTables
  { balances : list PoolBalanceRow.t;
    payments : list PaymentRow.t }.

(** The statements [Database] sends through [client.query], with their
    parameters. *)
Inductive Query : Type :=
| SelectBalancesWhereAddressNot (p : string)
    (* SELECT address, available_balance FROM balances WHERE address != $1 *)
| UpdateBalanceWhereAddress (v : Z) (wallet : string)
    (* UPDATE balances SET available_balance = $1 WHERE address = $2 *)
| InsertPayment (address : string) (amount : Z) (tx_id : string)
                (timestamp : Z) (notified : bool).
    (* INSERT INTO payments (address, amount, tx_id, timestamp, notified)
       VALUES ($1, $2, $3, $4, $5) *)

Definition set_available_balance (v : Z) (wallet : string)
           (r : PoolBalanceRow.t) : PoolBalanceRow.t :=
  if String.eqb (PoolBalanceRow.address r) wallet
  then PoolBalanceRow.mk (PoolBalanceRow.address r) v
  else r.

(** What the relations do with a statement: the rows it returns and the
    relations afterwards.  The statements have no [ORDER BY]: a relation is
    kept as a list and an update leaves a row where it is, but the place
    of a row after an update is the list's, not something the store
    promises. *)
Definition exec_query (q : Query) (t : Tables)
  : list PoolBalanceRow.t * Tables :=
  match q with
  | SelectBalancesWhereAddressNot p =>
      (filter (fun r => negb (String.eqb (PoolBalanceRow.address r) p))
              (balances t), t)
  | UpdateBalanceWhereAddress v wallet =>
      ([], mkTables (map (set_available_balance v wallet) (balances t))
                    (payments t))
  | InsertPayment a amt tx ts n =>
      ([], mkTables (balances t)
                    (payments t ++
                     [PaymentRow.mk (Z.of_nat (List.length (payments t)) + 1)
                                    a amt tx ts n]))
  end.

(** ** The ledger's wasm interface, as far as [send] uses it *)

Module IPaymentOutput.
Record t : Type := mk
  { address : string;
    amount : Z }.
End IPaymentOutput.

Module PendingTransaction.
Record t : Type := mk
  { id : string }.
End PendingTransaction.

Record GeneratorSummary : Type := mkSummary
  { finalTransactionId : option string }.

(** The settings object handed to [createTransactions]. *)
Record IGeneratorSettings : Type := mkSettings
  { outputs : list IPaymentOutput.t;
    changeAddress : string;
    priorityFee : Z }.

(** ** Lines written through [Monitoring] *)

Inductive LogLine : Type :=
| ProcessingBalance (balance : Z) (networkId : string) (address : string)
| NoPaymentsFound
| SentPayments (transactionId : option string)
| ResetBalanceFor (address : string)
| RunningScheduledTransfer
| TransactionManagerError (e : Error)
| RpcNotEstablished.

(** ** Calls to the outside world *)

(** [Call R] is a call whose answer has type [R].  A call that can reject
    answers with an [Outcome]. *)
Inductive Call : Type -> Type :=
| ClientQuery (q : Query) : Call (Outcome (list PoolBalanceRow.t))
| CreateTransactions (s : IGeneratorSettings)
    : Call (Outcome (list PendingTransaction.t * GeneratorSummary))
| Sign (tx : PendingTransaction.t) : Call (Outcome unit)
| Submit (tx : PendingTransaction.t) : Call (Outcome unit)
| SetTimeout (ms : Z) : Call unit
| DateNow : Call Z
| ConsoleLog (o : list IPaymentOutput.t) : Call unit
| MonitoringLog (l : LogLine) : Call unit
| MonitoringError (l : LogLine) : Call unit.


Inductive Event : Type :=
| Ev {R : Type} (c : Call R).

(** ** Programs *)

Inductive Prog (A : Type) : Type :=
| Ret (a : A)
| Throw (e : Error)
| Do {R : Type} (c : Call R) (k : R -> Prog A).
Arguments Ret {A} a.
Arguments Throw {A} e.
Arguments Do {A R} c k.

Fixpoint bind {A B} (p : Prog A) (f : A -> Prog B) : Prog B :=
  match p with
  | Ret a => f a
  | Throw e => Throw e
  | Do c k => Do c (fun r => bind (k r) f)
  end.

(** [try { p } catch (error) { h error }] *)
Fixpoint try_catch {A} (p : Prog A) (h : Error -> Prog A) : Prog A :=
  match p with
  | Ret a => Ret a
  | Throw e => h e
  | Do c k => Do c (fun r => try_catch (k r) h)
  end.

(** A call whose answer is used as it is. *)
Definition call {R} (c : Call R) : Prog R := Do c Ret.

(** [await] on a call that may reject: a rejection is thrown. *)
Definition await {A} (c : Call (Outcome A)) : Prog A :=
  Do c (fun r => match r with
                 | Returned a => Ret a
                 | Thrown e => Throw e
                 end).

Declare Scope prog_scope.
Delimit Scope prog_scope with prog.
Notation "x <- p ;; q" := (bind p (fun x => q))
  (at level 61, p at next level, right associativity) : prog_scope.
Notation "p ;; q" := (bind p (fun _ => q))
  (at level 61, right associativity) : prog_scope.
Open Scope prog_scope.

(** ** The outside world *)

(** How the world answers, given everything that was called before.  The
    store can reject any statement; the ledger decides what transactions
    cover a set of outputs and whether signing and broadcasting work. *)
Record Env : Type := mkEnv
  { query_rejects : list Event -> Query -> option Error;
    createTransactions :
      list Event -> IGeneratorSettings ->
      Outcome (list PendingTransaction.t * GeneratorSummary);
    sign_rejects : list Event -> PendingTransaction.t -> option Error;
    submit_rejects : list Event -> PendingTransaction.t -> option Error;
    now : list Event -> Z }.

Record World : Type := mkWorld
  { tables : Tables;
    history : list Event }.

Definition rejection (r : option Error) : Outcome unit :=
  match r with
  | Some e => Thrown e
  | None => Returned tt
  end.

(** One call: its answer and the world afterwards.  Every call is written
    to the history; only an accepted statement changes the relations. *)
Definition handle (env : Env) {R} (c : Call R) (w : World) : R * World :=
  let h := history w ++ [Ev c] in
  match c in Call R return R * World with
  | ClientQuery q =>
      match query_rejects env (history w) q with
      | Some e => (Thrown e, mkWorld (tables w) h)
      | None => let (rows, t) := exec_query q (tables w) in
                (Returned rows, mkWorld t h)
      end
  | CreateTransactions s =>
      (createTransactions env (history w) s, mkWorld (tables w) h)
  | Sign tx => (rejection (sign_rejects env (history w) tx),
                mkWorld (tables w) h)
  | Submit tx => (rejection (submit_rejects env (history w) tx),
                  mkWorld (tables w) h)
  | SetTimeout _ => (tt, mkWorld (tables w) h)
  | DateNow => (now env (history w), mkWorld (tables w) h)
  | ConsoleLog _ => (tt, mkWorld (tables w) h)
  | MonitoringLog _ => (tt, mkWorld (tables w) h)
  | MonitoringError _ => (tt, mkWorld (tables w) h)
  end.

(** A task run from start to end with nothing in between. *)
Fixpoint run (env : Env) {A} (p : Prog A) (w : World) : Outcome A * World :=
  match p with
  | Ret a => (Returned a, w)
  | Throw e => (Thrown e, w)
  | Do c k => let (r, w') := handle env c w in run env (k r) w'
  end.

(** ** [class Database] *)

(** The object [getAllBalancesExcludingPool] makes of a row. *)
Module Balance.
Record t : Type := mk
  { minerId : string;
    address : string;
    balance : Z }.
End Balance.

Module Database.

Definition of_row (row : PoolBalanceRow.t) : Balance.t :=
  Balance.mk (PoolBalanceRow.address row)
             (PoolBalanceRow.address row)
             (PoolBalanceRow.available_balance row).

Definition getAllBalancesExcludingPool : Prog (list Balance.t) :=
  rows <- await (ClientQuery (SelectBalancesWhereAddressNot "pool")) ;;
  Ret (map of_row rows).

Definition resetBalanceByAddress (wallet : string) : Prog unit :=
  _ <- await (ClientQuery (UpdateBalanceWhereAddress 0 wallet)) ;;
  Ret tt.


End Database.

(** ** [class trxManager] *)

Module trxManager.

(** The fields the payout cycle reads.  [address] is what the constructor
    derives from the private key: [privateKey.toAddress(networkId)]. *)
Record t : Type := mk
  { networkId : string;
    privateKey : string;
    address : string }.

(** The constructor, over the key derivation of the wasm bindings. *)
Definition new (toAddress : string -> string -> string)
           (networkId privKey : string) : t :=
  mk networkId privKey (toAddress privKey networkId).

(** The first loop of [transferBalances]: it pushes one output for every
    balance above zero onto [payments]. *)
Fixpoint collect_payments (this : t) (balances : list Balance.t)
         (payments : list IPaymentOutput.t) : Prog (list IPaymentOutput.t) :=
  match balances with
  | [] => Ret payments
  | b :: rest =>
      if 0 <? Balance.balance b then
        call (MonitoringLog (ProcessingBalance (Balance.balance b)
                                               (networkId this)
                                               (Balance.address b))) ;;
        collect_payments this rest
          (payments ++ [IPaymentOutput.mk (Balance.address b)
                                          (Balance.balance b)])
      else collect_payments this rest payments
  end.

(** The loop of [send] over the transactions: sign, submit, then wait
    five seconds. *)
Fixpoint submit_all (transactions : list PendingTransaction.t) : Prog unit :=
  match transactions with
  | [] => Ret tt
  | transaction :: rest =>
      await (Sign transaction) ;;
      await (Submit transaction) ;;
      call (SetTimeout 5000) ;;
      submit_all rest
  end.

Definition send (this : t) (outputs : list IPaymentOutput.t)
  : Prog (option string) :=
  call (ConsoleLog outputs) ;;
  try_catch
    (r <- await (CreateTransactions (mkSettings outputs (address this) 0)) ;;
     let (transactions, summary) := r in
     submit_all transactions ;;
     Ret (finalTransactionId summary))
    (fun error => Throw error).

(** The second loop of [transferBalances]: one reset for every balance
    above zero of the snapshot. *)
Fixpoint reset_balances (balances : list Balance.t) : Prog unit :=
  match balances with
  | [] => Ret tt
  | b :: rest =>
      if 0 <? Balance.balance b then
        Database.resetBalanceByAddress (Balance.address b) ;;
        call (MonitoringLog (ResetBalanceFor (Balance.address b))) ;;
        reset_balances rest
      else reset_balances rest
  end.

Definition transferBalances (this : t) : Prog unit :=
  balances <- Database.getAllBalancesExcludingPool ;;
  payments <- collect_payments this balances [] ;;
  if (Z.of_nat (List.length payments) =? 0) then
    call (MonitoringLog NoPaymentsFound) ;;
    Ret tt
  else
    transactionId <- send this payments ;;
    call (MonitoringLog (SentPayments transactionId)) ;;
    if truthy transactionId then
      reset_balances balances
    else
      Ret tt.

End trxManager.

(** ** The scheduler of [node-cron], as far as the entry points use it *)

(** The wall-clock reading the callbacks and the scheduler take. *)
Record Date : Type := mkDate
  { getHours : Z;
    getMinutes : Z;
    getSeconds : Z }.

(** A field of a cron expression: [*], [*/n] or a number. *)
Inductive CronField : Type :=
| Star
| StarSlash (n : Z)
| Value (v : Z).

(** [a % n === 0] on JavaScript numbers: the remainder of a division by
    zero is [NaN], which equals nothing. *)
Definition rem_is_zero (a n : Z) : bool :=
  if n =? 0 then false else Z.rem a n =? 0.

(** [*/n] stands for the values of the field's range that [n] divides. *)
Definition field_matches (f : CronField) (v : Z) : bool :=
  match f with
  | Star => true
  | StarSlash n => rem_is_zero v n
  | Value x => v =? x
  end.

(** The fields that are not [*] in the expressions of the entry points:
    seconds, minutes, hours. *)
Record CronExpression : Type := mkCron
  { second : CronField;
    minute : CronField;
    hour : CronField }.

(** The scheduler calls the task at every second the expression matches. *)
Definition cron_matches (e : CronExpression) (d : Date) : bool :=
  field_matches (second e) (getSeconds d) &&
  field_matches (minute e) (getMinutes d) &&
  field_matches (hour e) (getHours d).

(** [config.paymentInterval || d]: an absent value and zero are falsy. *)
Definition or_default (configured : option Z) (d : Z) : Z :=
  match configured with
  | None => d
  | Some v => if v =? 0 then d else v
  end.

(** ** The entry point that counts the cadence in minutes *)

Module IndexMinutes.

(** The check of [paymentInterval] at startup; the line written to the
    monitor before the throw is left out. *)
Definition paymentInterval (configured : option Z) : Outcome Z :=
  let paymentInterval := or_default configured 30 in
  if (paymentInterval <? 5) || (paymentInterval >? 1440)
  then Thrown "paymentInterval must be between 5 and 1440 minutes."
  else Returned paymentInterval.

(** [`0 */${paymentInterval} * * * *`] *)
Definition schedule (paymentInterval : Z) : CronExpression :=
  mkCron (Value 0) (StarSlash paymentInterval) Star.

(** The task handed to [cron.schedule]. *)
Definition callback (rpcConnected : bool) (transactionManager : trxManager.t)
  : Prog unit :=
  if rpcConnected then
    call (MonitoringLog RunningScheduledTransfer) ;;
    try_catch
      (trxManager.transferBalances transactionManager)
      (fun transactionError =>
         call (MonitoringError (TransactionManagerError transactionError)))
  else
    call (MonitoringError RpcNotEstablished).

(** The readings at which the scheduler starts a payout cycle. *)
Definition fires (paymentInterval : Z) (rpcConnected : bool) (d : Date)
  : bool :=
  cron_matches (schedule paymentInterval) d && rpcConnected.

(** The progress line: minutes until the next transfer. *)
Definition nextTransferMinutes (paymentInterval : Z) (d : Date) : Z :=
  let totalMinutes := getHours d * 60 + getMinutes d in
  paymentInterval - Z.rem totalMinutes paymentInterval.

End IndexMinutes.

(** ** The entry point that counts the cadence in hours *)

Module IndexHours.

Definition paymentInterval (configured : option Z) : Outcome Z :=
  let paymentInterval := or_default configured 2 in
  if (paymentInterval <? 1) || (paymentInterval >? 24)
  then Thrown "paymentInterval must be between 1 and 24 hours."
  else Returned paymentInterval.

(** [`*/10 * * * *`]: five fields, so the task is called at second 0. *)
Definition schedule : CronExpression :=
  mkCron (Value 0) (StarSlash 10) Star.

Definition isPaymentTime (paymentInterval : Z) (d : Date) : bool :=
  (getMinutes d =? 0) && rem_is_zero (getHours d) paymentInterval.

Definition callback (paymentInterval : Z) (rpcConnected : bool)
           (transactionManager : trxManager.t) (d : Date) : Prog unit :=
  if isPaymentTime paymentInterval d && rpcConnected then
    call (MonitoringLog RunningScheduledTransfer) ;;
    try_catch
      (trxManager.transferBalances transactionManager)
      (fun transactionError =>
         call (MonitoringError (TransactionManagerError transactionError)))
  else if isPaymentTime paymentInterval d && negb rpcConnected then
    call (MonitoringError RpcNotEstablished)
  else
    Ret tt.

Definition fires (paymentInterval : Z) (rpcConnected : bool) (d : Date)
  : bool :=
  cron_matches schedule d && isPaymentTime paymentInterval d && rpcConnected.

End IndexHours.

(** ** Tasks that overlap

    One thread runs every task.  A task runs until it awaits a call and is
    then suspended; the answer of the call resumes it.  While it is
    suspended the scheduler may start another task. *)








(** ** Vocabulary of the properties *)

(** A balance the cycle pays: strictly above zero. *)
Definition payable (b : Balance.t) : bool := 0 <? Balance.balance b.

Definition output_of (b : Balance.t) : IPaymentOutput.t :=
  IPaymentOutput.mk (Balance.address b) (Balance.balance b).

(** The batch of a snapshot, in the words of the specification: the
    records above zero, in snapshot order, each with its amount. *)
Definition payable_outputs (snapshot : list Balance.t)
  : list IPaymentOutput.t :=
  map output_of (filter payable snapshot).

Definition sum_amounts (out : list IPaymentOutput.t) : Z :=
  fold_right (fun o acc => IPaymentOutput.amount o + acc) 0 out.

(** The sum of the balances of a snapshot that are above zero. *)
Definition sum_positive (snapshot : list Balance.t) : Z :=
  fold_right (fun b acc => Z.max 0 (Balance.balance b) + acc) 0 snapshot.

(** The rows the snapshot statement returns. *)
Definition not_pool (r : PoolBalanceRow.t) : bool :=
  negb (String.eqb (PoolBalanceRow.address r) "pool").

Definition snapshot_of (t : Tables) : list Balance.t :=
  map Database.of_row (filter not_pool (balances t)).

(** The relation [balances] after the resets of a list of addresses. *)
Definition reset_all (wallets : list string) (rows : list PoolBalanceRow.t)
  : list PoolBalanceRow.t :=
  fold_left (fun rows wallet => map (set_available_balance 0 wallet) rows)
            wallets rows.

(** Statements that write: a reset or a payment record. *)
Definition is_store_write (e : Event) : bool :=
  match e with
  | Ev c =>
      match c with
      | ClientQuery (UpdateBalanceWhereAddress _ _) => true
      | ClientQuery (InsertPayment _ _ _ _ _) => true
      | _ => false
      end
  end.

Definition is_client_query (e : Event) : bool :=
  match e with
  | Ev c => match c with ClientQuery _ => true | _ => false end
  end.

Definition select_event : Event :=
  Ev (ClientQuery (SelectBalancesWhereAddressNot "pool")).

Definition reset_event (wallet : string) : Event :=
  Ev (ClientQuery (UpdateBalanceWhereAddress 0 wallet)).

Definition processing_event (this : trxManager.t) (b : Balance.t) : Event :=
  Ev (MonitoringLog (ProcessingBalance (Balance.balance b)
                                       (trxManager.networkId this)
                                       (Balance.address b))).

(** What [send] leaves in the history for one transaction. *)
Definition broadcast_events (tx : PendingTransaction.t) : list Event :=
  [Ev (Sign tx); Ev (Submit tx); Ev (SetTimeout 5000)].

(** What the second loop leaves in the history for one paid balance. *)
Definition settle_events (b : Balance.t) : list Event :=
  [reset_event (Balance.address b);
   Ev (MonitoringLog (ResetBalanceFor (Balance.address b)))].

(** What [send] leaves in the history when nothing rejects. *)
Definition send_events (this : trxManager.t) (out : list IPaymentOutput.t)
           (txs : list PendingTransaction.t) : list Event :=
  [Ev (ConsoleLog out);
   Ev (CreateTransactions (mkSettings out (trxManager.address this) 0))]
  ++ flat_map broadcast_events txs.

(** The ledger signs and broadcasts every transaction of [txs], whenever
    it is asked. *)
Definition accepted (env : Env) (txs : list PendingTransaction.t) : Prop :=
  forall h tx, In tx txs ->
               sign_rejects env h tx = None /\ submit_rejects env h tx = None.

(** The world in which a cycle started in [w] calls [send]: the snapshot
    statement and one line for every paid balance are in the history. *)
Definition world_at_send (this : trxManager.t) (w : World) : World :=
  mkWorld (tables w)
          (history w ++
           select_event ::
           map (processing_event this) (filter payable (snapshot_of (tables w)))).

(** What a cycle leaves in the history up to the line that reports the
    transaction id, when the snapshot is read and the ledger accepts. *)
Definition events_until_sent (this : trxManager.t) (snapshot : list Balance.t)
           (txs : list PendingTransaction.t) (transactionId : option string)
  : list Event :=
  select_event ::
  map (processing_event this) (filter payable snapshot) ++
  send_events this (payable_outputs snapshot) txs ++
  [Ev (MonitoringLog (SentPayments transactionId))].

(** The statements that reset the paid balances of [l] are accepted,
    whenever they are sent. *)
Definition resets_accepted (env : Env) (l : list Balance.t) : Prop :=
  forall h b, In b l -> payable b = true ->
              query_rejects env h
                (UpdateBalanceWhereAddress 0 (Balance.address b)) = None.

(** The world in which the task of the scheduler calls
    [transferBalances]: it has written its first line to the monitor. *)
Definition started (w : World) : World :=
  mkWorld (tables w)
          (history w ++ [Ev (MonitoringLog RunningScheduledTransfer)]).




(** A reset of the balance of [wallet]. *)
Definition is_reset_of (wallet : string) (e : Event) : bool :=
  match e with
  | Ev c =>
      match c with
      | ClientQuery (UpdateBalanceWhereAddress _ a) => String.eqb a wallet
      | _ => false
      end
  end.

Definition is_create_transactions (e : Event) : bool :=
  match e with
  | Ev c => match c with CreateTransactions _ => true | _ => false end
  end.

(** ** Worlds to run the cycle in *)

Module Scenario.

(** A key derivation: the address carries the network's prefix. *)
Definition toAddress (privKey networkId : string) : string :=
  String.append "vecno:" privKey.

Definition manager : trxManager.t :=
  trxManager.new toAddress "mainnet" "qtreasury".

Definition T1 : PendingTransaction.t := PendingTransaction.mk "T1".
Definition T2 : PendingTransaction.t := PendingTransaction.mk "T2".

(** Balances of 500 for [A], 0 for [B] and 1200 for [C], and the row the
    pool keeps under the key [pool]. *)
Definition rows : list PoolBalanceRow.t :=
  [PoolBalanceRow.mk "A" 500; PoolBalanceRow.mk "B" 0;
   PoolBalanceRow.mk "pool" 7; PoolBalanceRow.mk "C" 1200].

Definition start : World := mkWorld (mkTables rows []) [].

Definition snapshot : list Balance.t :=
  [Balance.mk "A" "A" 500; Balance.mk "B" "B" 0; Balance.mk "C" "C" 1200].

Definition batch : list IPaymentOutput.t :=
  [IPaymentOutput.mk "A" 500; IPaymentOutput.mk "C" 1200].

(** Nothing above zero. *)
Definition idle : World :=
  mkWorld (mkTables [PoolBalanceRow.mk "A" 0; PoolBalanceRow.mk "B" (-5);
                     PoolBalanceRow.mk "pool" 7] []) [].

(** A row under the address derived from the pool's key. *)
Definition with_treasury_row : World :=
  mkWorld (mkTables [PoolBalanceRow.mk "vecno:qtreasury" 700;
                     PoolBalanceRow.mk "A" 500] []) [].

(** Store and ledger accept everything; one transaction [T1] covers the
    batch. *)
Definition accepting : Env :=
  mkEnv (fun _ _ => None)
        (fun _ _ => Returned ([T1], mkSummary (Some "T1")))
        (fun _ _ => None)
        (fun _ _ => None)
        (fun _ => 0).

(** The store rejects the reset of [A]. *)
Definition reset_of_A_rejected : Env :=
  mkEnv (fun _ q => match q with
                    | UpdateBalanceWhereAddress _ "A" => Some "store unavailable"
                    | _ => None
                    end)
        (fun _ _ => Returned ([T1], mkSummary (Some "T1")))
        (fun _ _ => None)
        (fun _ _ => None)
        (fun _ => 0).

(** Two transactions cover the batch; the broadcast of the second is
    rejected. *)
Definition second_broadcast_rejected : Env :=
  mkEnv (fun _ _ => None)
        (fun _ _ => Returned ([T1; T2], mkSummary (Some "T2")))
        (fun _ _ => None)
        (fun _ tx => if String.eqb (PendingTransaction.id tx) "T2"
                     then Some "broadcast failed" else None)
        (fun _ => 0).

(** The ledger broadcasts [T1] and reports no final transaction id. *)
Definition no_final_id : Env :=
  mkEnv (fun _ _ => None)
        (fun _ _ => Returned ([T1], mkSummary None))
        (fun _ _ => None)
        (fun _ _ => None)
        (fun _ => 0).




End Scenario.

(** ** The payment history: the methods of [Database] the cycle does not call *)

(** The statements [getPendingPayments] and [markPaymentNotified] send. *)
Inductive PaymentsQuery : Type :=
| SelectPaymentsWhereAddressNotified (address : string) (notified : bool)
    (* SELECT id, address, amount, tx_id, timestamp, notified FROM payments
       WHERE address = $1 AND notified = $2 *)
| UpdatePaymentsNotifiedWhereId (v : bool) (id : Z).
    (* UPDATE payments SET notified = $1 WHERE id = $2 *)

Definition set_notified (v : bool) (id : Z) (r : PaymentRow.t) : PaymentRow.t :=
  if PaymentRow.id r =? id
  then PaymentRow.mk (PaymentRow.id r) (PaymentRow.address r)
                     (PaymentRow.amount r) (PaymentRow.tx_id r)
                     (PaymentRow.timestamp r) v
  else r.

Definition exec_payments_query (q : PaymentsQuery) (t : Tables)
  : list PaymentRow.t * Tables :=
  match q with
  | SelectPaymentsWhereAddressNotified a n =>
      (filter (fun r => String.eqb (PaymentRow.address r) a &&
                        Bool.eqb (PaymentRow.notified r) n)
              (payments t), t)
  | UpdatePaymentsNotifiedWhereId v i =>
      ([], mkTables (balances t) (map (set_notified v i) (payments t)))
  end.

(** The object [getPendingPayments] makes of a row. *)
Module Payment.
Record t : Type := mk
  { id : Z;
    address : string;
    amount : Z;
    txId : string;
    timestamp : Z;
    notified : bool }.
End Payment.

(** These two methods are written with the relations passed along: a
    method takes the store's answer ([rejects]: the error the client
    rejects the statement with, if any) and the relations, and gives its
    outcome and the relations afterwards. *)
Module DatabasePayments.

Definition of_row (row : PaymentRow.t) : Payment.t :=
  Payment.mk (PaymentRow.id row) (PaymentRow.address row)
             (PaymentRow.amount row) (PaymentRow.tx_id row)
             (PaymentRow.timestamp row) (PaymentRow.notified row).

Definition query (rejects : option Error) (q : PaymentsQuery) (t : Tables)
  : Outcome (list PaymentRow.t) * Tables :=
  match rejects with
  | Some e => (Thrown e, t)
  | None => let (rows, t') := exec_payments_query q t in (Returned rows, t')
  end.

Definition getPendingPayments (rejects : option Error) (address : string)
           (t : Tables) : Outcome (list Payment.t) * Tables :=
  let (res, t') :=
    query rejects (SelectPaymentsWhereAddressNotified address false) t in
  (match res with
   | Returned rows => Returned (map of_row rows)
   | Thrown e => Thrown e
   end, t').

Definition markPaymentNotified (rejects : option Error) (id : Z) (t : Tables)
  : Outcome unit * Tables :=
  let (res, t') := query rejects (UpdatePaymentsNotifiedWhereId true id) t in
  (match res with
   | Returned _ => Returned tt
   | Thrown e => Thrown e
   end, t').

End DatabasePayments.

(** ** Startup of the entry point *)

(** [process.env], as far as the entry point reads it. *)
Module ProcessEnv.
Record t : Type := mk
  { TREASURY_PRIVATE_KEY : option string;
    DATABASE_URL : option string }.
End ProcessEnv.

(** [config/config.json]. *)
Module Config.
Record t : Type := mk
  { network : option string;
    node : list string;
    paymentInterval : option Z }.
End Config.

Record ServerInfo : Type := mkServerInfo
  { isSynced : bool;
    hasUtxoIndex : bool }.

(** What the startup meets outside: how the race of [rpc.connect()] against
    the timer of ten seconds settles, what [rpc.getServerInfo()] answers,
    and whether the wasm bindings take the private key. *)
Record Outside : Type := mkOutside
  { raced : Outcome unit;
    getServerInfo : Outcome ServerInfo;
    newPrivateKey : string -> option Error;
    toAddress : string -> string -> string }.

(** What is in place when [cron.schedule] is reached. *)
Record Scheduled : Type := mkScheduled
  { interval : Z;
    rpcConnected : bool;
    transactionManager : option trxManager.t }.

(** A text that is there: [!s] is false.  An absent text and the empty text
    are not there. *)
Definition present (s : option string) : option string :=
  match s with
  | Some v => if String.eqb v "" then None else Some v
  | None => None
  end.

(** [`${error}`] for a thrown [Error] with message [e]. *)
Definition render (e : Error) : string := String.append "Error: " e.

Module Startup.

(** The flag [rpcConnected] is set only on the path that returns. *)
Definition startRpcConnection (o : Outside) : Outcome unit * bool :=
  let attempt : Outcome unit :=
    match raced o with
    | Thrown e => Thrown e
    | Returned _ =>
        match getServerInfo o with
        | Thrown e => Thrown e
        | Returned serverInfo =>
            if negb (isSynced serverInfo) || negb (hasUtxoIndex serverInfo)
            then Thrown "Provided node is either not synchronized or lacks the UTXO index."
            else Returned tt
        end
    end in
  match attempt with
  | Returned _ => (Returned tt, true)
  | Thrown rpcError =>
      (Thrown (String.append "RPC connection error: " (render rpcError)), false)
  end.

(** [new trxManager(...)], as far as it can throw. *)
Definition setupTransactionManager (o : Outside) (network key : string)
  : Outcome trxManager.t :=
  match newPrivateKey o key with
  | Some e => Thrown e
  | None => Returned (trxManager.new (toAddress o) network key)
  end.

(** The entry point from its first check to [cron.schedule]; [check] is
    the check of the cadence of the variant. *)
Definition main (check : option Z -> Outcome Z)
           (env : ProcessEnv.t) (config : Config.t) (o : Outside)
  : Outcome Scheduled :=
  match present (ProcessEnv.TREASURY_PRIVATE_KEY env) with
  | None => Thrown "Environment variable TREASURY_PRIVATE_KEY is not set."
  | Some treasuryPrivateKey =>
  match present (Config.network config) with
  | None => Thrown "No network has been set in config.json"
  | Some network =>
  match present (ProcessEnv.DATABASE_URL env) with
  | None => Thrown "Environment variable DATABASE_URL is not set."
  | Some databaseUrl =>
  match check (Config.paymentInterval config) with
  | Thrown e => Thrown e
  | Returned paymentInterval =>
  match startRpcConnection o with
  | (Thrown error, _) => Thrown error
  | (Returned _, rpcConnected) =>
  match setupTransactionManager o network treasuryPrivateKey with
  | Thrown error => Thrown error
  | Returned manager =>
      Returned (mkScheduled paymentInterval rpcConnected (Some manager))
  end end end end end end.

End Startup.

(** ** The progress line of the entry point that counts hours *)

Module ProgressHours.

Definition nextTransferHours (paymentInterval : Z) (d : Date) : Z :=
  paymentInterval - Z.rem (getHours d) paymentInterval.

Definition remainingMinutes (paymentInterval : Z) (d : Date) : Z :=
  nextTransferHours paymentInterval d * 60 - getMinutes d.

Definition remainingTime (paymentInterval : Z) (d : Date) : Z :=
  if remainingMinutes paymentInterval d =? nextTransferHours paymentInterval d * 60
  then 0
  else remainingMinutes paymentInterval d.

End ProgressHours.

(** ** More vocabulary *)

(** The addresses a cycle started on the relations [t] pays. *)
Definition paid_addresses (t : Tables) : list string :=
  map Balance.address (filter payable (snapshot_of t)).

(** ** More worlds *)

Module Worlds.

(** Two transactions cover the batch; the ledger does not sign the
    second. *)
Definition second_signature_rejected : Env :=
  mkEnv (fun _ _ => None)
        (fun _ _ => Returned ([Scenario.T1; Scenario.T2], mkSummary (Some "T2")))
        (fun _ tx => if String.eqb (PendingTransaction.id tx) "T2"
                     then Some "signature failed" else None)
        (fun _ _ => None)
        (fun _ => 0).

(** The store rejects the snapshot statement. *)
Definition snapshot_rejected : Env :=
  mkEnv (fun _ q => match q with
                    | SelectBalancesWhereAddressNot _ => Some "store unavailable"
                    | _ => None
                    end)
        (fun _ _ => Returned ([Scenario.T1], mkSummary (Some "T1")))
        (fun _ _ => None)
        (fun _ _ => None)
        (fun _ => 0).

(** Two transactions cover the batch; store and ledger accept
    everything. *)
Definition two_transactions : Env :=
  mkEnv (fun _ _ => None)
        (fun _ _ => Returned ([Scenario.T1; Scenario.T2], mkSummary (Some "T2")))
        (fun _ _ => None)
        (fun _ _ => None)
        (fun _ => 0).


(** Two payments on record: one to [A] that is still pending, one to [C]
    that has been notified. *)
Definition with_payments : Tables :=
  mkTables Scenario.rows
           [PaymentRow.mk 1 "A" 500 "T0" 1699990000 false;
            PaymentRow.mk 2 "C" 1200 "T0" 1699990000 true].

Definition environment : ProcessEnv.t :=
  ProcessEnv.mk (Some "qtreasury") (Some "postgres://pool").

Definition config : Config.t :=
  Config.mk (Some "mainnet") ["wss://node"] None.

(** The node answers in time, is synchronized and has the UTXO index. *)
Definition outside : Outside :=
  mkOutside (Returned tt) (Returned (mkServerInfo true true))
            (fun _ => None) Scenario.toAddress.

End Worlds.

(** ** Programs and their runs *)

Section Runs.

Variable env : Env.

Lemma run_bind {A B} (p : Prog A) (f : A -> Prog B) (w : World) :
  run env (bind p f) w =
  match run env p w with
  | (Returned a, w') => run env (f a) w'
  | (Thrown e, w') => (Thrown e, w')
  end.
Proof.
  revert w; induction p as [a | e | R c k IH]; intro w; simpl; auto.
  destruct (handle env c w) as [r w']. apply IH.
Qed.

Lemma run_try_catch {A} (p : Prog A) (h : Error -> Prog A) (w : World) :
  run env (try_catch p h) w =
  match run env p w with
  | (Returned a, w') => (Returned a, w')
  | (Thrown e, w') => run env (h e) w'
  end.
Proof.
  revert w; induction p as [a | e | R c k IH]; intro w; simpl; auto.
  destruct (handle env c w) as [r w']. apply IH.
Qed.

(** [catch (error) { throw error }] changes nothing. *)
Lemma run_rethrow {A} (p : Prog A) (w : World) :
  run env (try_catch p (fun error => Throw error)) w = run env p w.
Proof.
  rewrite run_try_catch.
  destruct (run env p w) as [[a | e] w']; reflexivity.
Qed.

Lemma run_log (l : LogLine) (w : World) :
  run env (call (MonitoringLog l)) w =
  (Returned tt, mkWorld (tables w) (history w ++ [Ev (MonitoringLog l)])).
Proof. reflexivity. Qed.

End Runs.

(** ** The batch of a snapshot *)

Section Batcher.

Variable env : Env.
Variable this : trxManager.t.

(** The first loop returns the outputs it was given followed by the batch
    of the balances it walks, and only writes lines to the monitor. *)
Lemma run_collect_payments (balances : list Balance.t)
      (acc : list IPaymentOutput.t) (w : World) :
  run env (trxManager.collect_payments this balances acc) w =
  (Returned (acc ++ payable_outputs balances),
   mkWorld (tables w)
           (history w ++ map (processing_event this) (filter payable balances))).
Proof.
  revert acc w; induction balances as [| b rest IH]; intros acc w.
  - simpl. rewrite !app_nil_r. destruct w; reflexivity.
  - unfold payable_outputs. simpl.
    change (0 <? Balance.balance b) with (payable b).
    destruct (payable b) eqn:Hb.
    + simpl. rewrite IH. simpl.
      unfold payable_outputs. rewrite <- !app_assoc. reflexivity.
    + apply IH.
Qed.

Lemma payable_outputs_positive (snapshot : list Balance.t) :
  Forall (fun o => 0 < IPaymentOutput.amount o) (payable_outputs snapshot).
Proof.
  unfold payable_outputs. apply Forall_forall. intros o Ho.
  apply in_map_iff in Ho. destruct Ho as [b [<- Hb]].
  apply filter_In in Hb. destruct Hb as [_ Hb].
  unfold payable in Hb. apply Z.ltb_lt in Hb. exact Hb.
Qed.

Lemma payable_outputs_addresses (snapshot : list Balance.t) :
  map IPaymentOutput.address (payable_outputs snapshot) =
  map Balance.address (filter payable snapshot).
Proof.
  unfold payable_outputs. rewrite map_map. reflexivity.
Qed.

(** The addresses of the paid balances are among those of the snapshot. *)
Lemma paid_address_in_snapshot (snapshot : list Balance.t) (a : string) :
  In a (map Balance.address (filter payable snapshot)) ->
  In a (map Balance.address snapshot).
Proof.
  rewrite !in_map_iff. intros [b [Ha Hb]].
  exists b. split; [exact Ha |].
  apply filter_In in Hb. tauto.
Qed.

Lemma paid_addresses_distinct (snapshot : list Balance.t) :
  NoDup (map Balance.address snapshot) ->
  NoDup (map Balance.address (filter payable snapshot)).
Proof.
  induction snapshot as [| b rest IH]; cbn [map filter]; [tauto |].
  rewrite NoDup_cons_iff. intros [Hfresh Hrest].
  destruct (payable b); [| exact (IH Hrest)].
  cbn [map]. apply NoDup_cons_iff. split; [| exact (IH Hrest)].
  intro Hin. exact (Hfresh (paid_address_in_snapshot rest _ Hin)).
Qed.

Lemma payable_outputs_sum (snapshot : list Balance.t) :
  sum_amounts (payable_outputs snapshot) = sum_positive snapshot.
Proof.
  unfold payable_outputs.
  induction snapshot as [| b rest IH]; simpl; auto.
  destruct (payable b) eqn:Hb; unfold payable in Hb; simpl.
  - apply Z.ltb_lt in Hb. rewrite IH. lia.
  - apply Z.ltb_ge in Hb. rewrite IH. lia.
Qed.

(** An address is in the batch once for every record above zero it has in
    the snapshot. *)
Lemma paid_address_count (snapshot : list Balance.t) (a : string) :
  count_occ string_dec
            (map IPaymentOutput.address (map output_of (filter payable snapshot)))
            a =
  List.length (filter (fun b => payable b && String.eqb (Balance.address b) a)
                      snapshot).
Proof.
  induction snapshot as [| b rest IH]; [reflexivity |].
  cbn [filter]. destruct (payable b); cbn [andb]; [| exact IH].
  cbn [map output_of IPaymentOutput.address count_occ].
  destruct (string_dec (Balance.address b) a) as [Heq | Hne].
  - apply String.eqb_eq in Heq. rewrite Heq. cbn [List.length].
    now rewrite IH.
  - apply String.eqb_neq in Hne. rewrite Hne. exact IH.
Qed.

(** C3, as the code has it.  For every snapshot the first loop of
    [transferBalances] returns exactly the records whose balance is above
    zero, in snapshot order and each with its snapshot amount; no output
    has an amount of zero or less; an address is in the output once for
    every record above zero it has in the snapshot, so at most once when
    the snapshot has one record per address; and the amounts add up to the
    sum of the balances above zero. *)
Theorem batcher_output (snapshot : list Balance.t) (w : World) :
  fst (run env (trxManager.collect_payments this snapshot []) w) =
    Returned (map output_of (filter payable snapshot)) /\
  Forall (fun o => 0 < IPaymentOutput.amount o)
         (map output_of (filter payable snapshot)) /\
  (forall a,
      count_occ string_dec
                (map IPaymentOutput.address
                     (map output_of (filter payable snapshot))) a =
      List.length
        (filter (fun b => payable b && String.eqb (Balance.address b) a)
                snapshot)) /\
  (NoDup (map Balance.address snapshot) ->
   NoDup (map IPaymentOutput.address (map output_of (filter payable snapshot)))) /\
  sum_amounts (map output_of (filter payable snapshot)) = sum_positive snapshot.
Proof.
  rewrite run_collect_payments. simpl.
  split; [reflexivity |].
  split; [apply payable_outputs_positive |].
  split; [apply paid_address_count |].
  split; [| apply payable_outputs_sum].
  intro H. fold (payable_outputs snapshot).
  rewrite payable_outputs_addresses.
  now apply paid_addresses_distinct.
Qed.

End Batcher.

(** ** The phases of a cycle *)

Section Phases.

Variable env : Env.
Variable this : trxManager.t.

(** *** Snapshot *)

Lemma run_getAllBalancesExcludingPool (w : World) :
  run env Database.getAllBalancesExcludingPool w =
  (match query_rejects env (history w) (SelectBalancesWhereAddressNot "pool") with
   | Some e => Thrown e
   | None => Returned (snapshot_of (tables w))
   end,
   mkWorld (tables w) (history w ++ [select_event])).
Proof.
  unfold Database.getAllBalancesExcludingPool. simpl.
  destruct (query_rejects env (history w) _); destruct w as [[bs ps] h];
    reflexivity.
Qed.

(** *** Submission *)

Lemma run_submit_all_accepted (txs : list PendingTransaction.t) (w : World) :
  accepted env txs ->
  run env (trxManager.submit_all txs) w =
  (Returned tt,
   mkWorld (tables w) (history w ++ flat_map broadcast_events txs)).
Proof.
  revert w; induction txs as [| tx rest IH]; intros w Hok.
  - simpl. rewrite app_nil_r. destruct w; reflexivity.
  - assert (Hrest : accepted env rest).
    { intros h t Ht. apply Hok. now right. }
    simpl.
    destruct (Hok (history w) tx (or_introl eq_refl)) as [Hs _].
    rewrite Hs. simpl.
    destruct (Hok (history w ++ [Ev (Sign tx)]) tx (or_introl eq_refl))
      as [_ Hb].
    rewrite Hb. simpl.
    rewrite (IH _ Hrest). simpl.
    rewrite <- !app_assoc. reflexivity.
Qed.

(** Whatever the ledger answers, the loop over the transactions leaves
    the relations alone and sends no statement. *)
Lemma submit_all_frame (txs : list PendingTransaction.t) (w : World) :
  exists r evs,
    run env (trxManager.submit_all txs) w =
      (r, mkWorld (tables w) (history w ++ evs)) /\
    filter is_client_query evs = [].
Proof.
  revert w; induction txs as [| tx rest IH]; intro w.
  - exists (Returned tt), []. simpl. rewrite app_nil_r.
    destruct w; auto.
  - simpl.
    destruct (sign_rejects env (history w) tx) as [e |]; simpl.
    { exists (Thrown e), [Ev (Sign tx)]. auto. }
    destruct (submit_rejects env (history w ++ [Ev (Sign tx)]) tx)
      as [e |]; simpl.
    { exists (Thrown e), [Ev (Sign tx); Ev (Submit tx)].
      rewrite <- app_assoc. auto. }
    match goal with
    | |- context [run env (trxManager.submit_all rest) ?w1] =>
        destruct (IH w1) as [r [evs [Hr Hq]]]
    end.
    exists r, (broadcast_events tx ++ evs).
    rewrite Hr. simpl. rewrite <- !app_assoc. simpl. auto.
Qed.

Lemma run_send_accepted (out : list IPaymentOutput.t)
      (txs : list PendingTransaction.t) (summary : GeneratorSummary)
      (w : World) :
  (forall h, createTransactions env h
               (mkSettings out (trxManager.address this) 0)
             = Returned (txs, summary)) ->
  accepted env txs ->
  run env (trxManager.send this out) w =
  (Returned (finalTransactionId summary),
   mkWorld (tables w) (history w ++ send_events this out txs)).
Proof.
  intros Hc Hok. unfold trxManager.send.
  rewrite run_bind. simpl run at 1. cbv iota beta.
  rewrite run_rethrow, run_bind. simpl run at 1.
  rewrite Hc. cbn [run].
  rewrite run_bind, (run_submit_all_accepted _ _ Hok). simpl.
  unfold send_events. rewrite <- !app_assoc. reflexivity.
Qed.

(** Whatever the ledger answers, [send] leaves the relations alone and
    sends no statement. *)
Lemma send_frame (out : list IPaymentOutput.t) (w : World) :
  exists r evs,
    run env (trxManager.send this out) w =
      (r, mkWorld (tables w) (history w ++ evs)) /\
    filter is_client_query evs = [].
Proof.
  unfold trxManager.send.
  rewrite run_bind. simpl run at 1. cbv iota beta.
  rewrite run_rethrow, run_bind. simpl run at 1.
  destruct (createTransactions env _ _) as [[txs summary] | e]; cbn [run].
  - rewrite run_bind.
    match goal with
    | |- context [run env (trxManager.submit_all txs) ?w1] =>
        destruct (submit_all_frame txs w1) as [r [evs [Hr Hq]]]
    end.
    rewrite Hr. simpl.
    exists (match r with
            | Returned _ => Returned (finalTransactionId summary)
            | Thrown e => Thrown e
            end),
           ([Ev (ConsoleLog out);
             Ev (CreateTransactions
                   (mkSettings out (trxManager.address this) 0))] ++ evs).
    rewrite <- !app_assoc. simpl. destruct r; auto.
  - exists (Thrown e),
           [Ev (ConsoleLog out);
            Ev (CreateTransactions
                  (mkSettings out (trxManager.address this) 0))].
    rewrite <- app_assoc. auto.
Qed.

(** *** Settling *)

Lemma run_resetBalanceByAddress (wallet : string) (w : World) :
  run env (Database.resetBalanceByAddress wallet) w =
  match query_rejects env (history w) (UpdateBalanceWhereAddress 0 wallet) with
  | Some e =>
      (Thrown e, mkWorld (tables w) (history w ++ [reset_event wallet]))
  | None =>
      (Returned tt,
       mkWorld (mkTables (map (set_available_balance 0 wallet)
                              (balances (tables w)))
                         (payments (tables w)))
               (history w ++ [reset_event wallet]))
  end.
Proof.
  unfold Database.resetBalanceByAddress. simpl.
  destruct (query_rejects env (history w) _); reflexivity.
Qed.

Lemma run_reset_balances_cons (b : Balance.t) (rest : list Balance.t)
      (w : World) :
  run env (trxManager.reset_balances (b :: rest)) w =
  if payable b then
    match run env (Database.resetBalanceByAddress (Balance.address b)) w with
    | (Returned _, w1) =>
        run env (trxManager.reset_balances rest)
            (mkWorld (tables w1)
                     (history w1 ++
                      [Ev (MonitoringLog (ResetBalanceFor (Balance.address b)))]))
    | (Thrown e, w1) => (Thrown e, w1)
    end
  else run env (trxManager.reset_balances rest) w.
Proof.
  cbn [trxManager.reset_balances].
  change (0 <? Balance.balance b) with (payable b).
  destruct (payable b); [| reflexivity].
  rewrite run_bind.
  destruct (run env (Database.resetBalanceByAddress (Balance.address b)) w)
    as [[[] | e] w1]; reflexivity.
Qed.

Lemma run_reset_balances_accepted (l : list Balance.t) (w : World) :
  resets_accepted env l ->
  run env (trxManager.reset_balances l) w =
  (Returned tt,
   mkWorld (mkTables (reset_all (map Balance.address (filter payable l))
                                (balances (tables w)))
                     (payments (tables w)))
           (history w ++ flat_map settle_events (filter payable l))).
Proof.
  revert w; induction l as [| b rest IH]; intros w Hok.
  - simpl. rewrite app_nil_r. destruct w as [[bs ps] h]; reflexivity.
  - assert (Hrest : resets_accepted env rest).
    { intros h x Hx. apply Hok. now right. }
    rewrite run_reset_balances_cons. simpl filter.
    destruct (payable b) eqn:Hb.
    + rewrite run_resetBalanceByAddress, (Hok _ b (or_introl eq_refl) Hb).
      rewrite (IH _ Hrest). simpl.
      rewrite <- !app_assoc. reflexivity.
    + apply (IH _ Hrest).
Qed.

Lemma run_reset_balances_app (l1 l2 : list Balance.t) (w : World) :
  run env (trxManager.reset_balances (l1 ++ l2)) w =
  match run env (trxManager.reset_balances l1) w with
  | (Returned _, w1) => run env (trxManager.reset_balances l2) w1
  | (Thrown e, w1) => (Thrown e, w1)
  end.
Proof.
  revert w; induction l1 as [| b rest IH]; intro w.
  - reflexivity.
  - rewrite <- app_comm_cons, !run_reset_balances_cons.
    destruct (payable b); [| apply IH].
    destruct (run env (Database.resetBalanceByAddress (Balance.address b)) w)
      as [[[] | e] w1]; [apply IH | reflexivity].
Qed.

End Phases.

(** ** One cycle *)

Section Cycle.

Variable env : Env.
Variable this : trxManager.t.

(** [transferBalances], phase by phase. *)
Lemma run_transferBalances (w : World) :
  run env (trxManager.transferBalances this) w =
  match query_rejects env (history w) (SelectBalancesWhereAddressNot "pool") with
  | Some e => (Thrown e, mkWorld (tables w) (history w ++ [select_event]))
  | None =>
      let snapshot := snapshot_of (tables w) in
      let w1 := world_at_send this w in
      match payable_outputs snapshot with
      | [] =>
          (Returned tt,
           mkWorld (tables w)
                   (history w1 ++ [Ev (MonitoringLog NoPaymentsFound)]))
      | _ :: _ =>
          match run env (trxManager.send this (payable_outputs snapshot)) w1 with
          | (Thrown e, w2) => (Thrown e, w2)
          | (Returned transactionId, w2) =>
              let w3 :=
                mkWorld (tables w2)
                        (history w2 ++
                         [Ev (MonitoringLog (SentPayments transactionId))]) in
              if truthy transactionId
              then run env (trxManager.reset_balances snapshot) w3
              else (Returned tt, w3)
          end
      end
  end.
Proof.
  unfold trxManager.transferBalances.
  rewrite run_bind, run_getAllBalancesExcludingPool.
  destruct (query_rejects env (history w) _) as [e |]; [reflexivity |].
  rewrite run_bind, run_collect_payments. cbn [app tables history].
  cbv zeta. rewrite <- app_assoc. cbn [app].
  change (mkWorld (tables w)
            (history w ++
             select_event ::
             map (processing_event this)
                 (filter payable (snapshot_of (tables w)))))
    with (world_at_send this w).
  destruct (payable_outputs (snapshot_of (tables w))) as [| o out] eqn:Hout.
  - reflexivity.
  - cbn [List.length]. rewrite Nat2Z.inj_succ.
    destruct (Z.succ (Z.of_nat (List.length out)) =? 0) eqn:Hz.
    { apply Z.eqb_eq in Hz. lia. }
    rewrite run_bind.
    destruct (run env (trxManager.send this (o :: out)) (world_at_send this w))
      as [[transactionId | e] w2]; [| reflexivity].
    rewrite run_bind, run_log.
    destruct (truthy transactionId); reflexivity.
Qed.

(** *** What a cycle writes to the store *)

Lemma store_writes_are_queries (evs : list Event) :
  filter is_client_query evs = [] -> filter is_store_write evs = [].
Proof.
  induction evs as [| ev evs IH]; simpl; auto.
  destruct ev as [R c]; destruct c; simpl; try exact IH; try discriminate.
Qed.

Lemma processing_writes_nothing (l : list Balance.t) :
  filter is_store_write (map (processing_event this) l) = [].
Proof. induction l; simpl; auto. Qed.

Lemma broadcast_writes_nothing (txs : list PendingTransaction.t) :
  filter is_store_write (flat_map broadcast_events txs) = [].
Proof. induction txs; simpl; auto. Qed.

Lemma send_writes_nothing (out : list IPaymentOutput.t)
      (txs : list PendingTransaction.t) :
  filter is_store_write (send_events this out txs) = [].
Proof.
  unfold send_events. rewrite filter_app, broadcast_writes_nothing.
  reflexivity.
Qed.

Lemma settle_writes_resets (l : list Balance.t) :
  filter is_store_write (flat_map settle_events l) =
  map (fun b => reset_event (Balance.address b)) l.
Proof. induction l as [| b l IH]; simpl; [| rewrite IH]; reflexivity. Qed.

(** What the snapshot phase returned, read off its run. *)
Lemma snapshot_returned (w w0 : World) (snapshot : list Balance.t) :
  run env Database.getAllBalancesExcludingPool w = (Returned snapshot, w0) ->
  query_rejects env (history w) (SelectBalancesWhereAddressNot "pool") = None /\
  snapshot = snapshot_of (tables w) /\
  w0 = mkWorld (tables w) (history w ++ [select_event]).
Proof.
  rewrite run_getAllBalancesExcludingPool.
  destruct (query_rejects env (history w) _); intro H; inversion H; auto.
Qed.

Lemma nothing_payable (l : list Balance.t) :
  Forall (fun b => Balance.balance b <= 0) l -> filter payable l = [].
Proof.
  induction 1 as [| b l Hb _ IH]; simpl; auto.
  unfold payable at 1.
  destruct (0 <? Balance.balance b) eqn:E; [apply Z.ltb_lt in E; lia | exact IH].
Qed.

(** C4.  When no balance of the snapshot is above zero, the cycle returns
    without an error after the snapshot statement and one line to the
    monitor: it calls neither the ledger nor [resetBalanceByAddress] nor
    [recordPayment], and the relations are as before. *)
Theorem empty_batch_is_no_op (w w0 : World) (snapshot : list Balance.t) :
  run env Database.getAllBalancesExcludingPool w = (Returned snapshot, w0) ->
  Forall (fun b => Balance.balance b <= 0) snapshot ->
  run env (trxManager.transferBalances this) w =
  (Returned tt,
   mkWorld (tables w)
           (history w ++
            [select_event; Ev (MonitoringLog NoPaymentsFound)])).
Proof.
  intros Hsnap Hall.
  apply snapshot_returned in Hsnap. destruct Hsnap as [Hq [Hs _]].
  rewrite run_transferBalances, Hq. cbv zeta.
  unfold payable_outputs, world_at_send.
  rewrite <- Hs, (nothing_payable _ Hall). simpl.
  rewrite <- app_assoc. reflexivity.
Qed.

(** C2.  When [send] throws, [transferBalances] throws the same error in
    the world [send] left: the relations are those of the start of the
    cycle, and the cycle has sent no statement that resets a balance or
    records a payment. *)
Theorem failed_submission_leaves_store
        (w w0 w1 w2 : World) (snapshot : list Balance.t)
        (batch : list IPaymentOutput.t) (e : Error) :
  run env Database.getAllBalancesExcludingPool w = (Returned snapshot, w0) ->
  run env (trxManager.collect_payments this snapshot []) w0
    = (Returned batch, w1) ->
  batch <> [] ->
  run env (trxManager.send this batch) w1 = (Thrown e, w2) ->
  run env (trxManager.transferBalances this) w = (Thrown e, w2) /\
  tables w2 = tables w /\
  exists evs, history w2 = history w ++ evs /\
              filter is_store_write evs = [].
Proof.
  intros Hsnap Hcol Hne Hsend.
  apply snapshot_returned in Hsnap. destruct Hsnap as [Hq [Hs Hw0]].
  rewrite run_collect_payments in Hcol. subst w0. simpl in Hcol.
  inversion Hcol as [[Hb Hw1]]. clear Hcol.
  assert (Hw : w1 = world_at_send this w).
  { unfold world_at_send. rewrite <- Hw1, <- Hs, <- app_assoc. reflexivity. }
  destruct (send_frame env this batch w1) as [r [evs [Hr Hf]]].
  rewrite Hsend in Hr. injection Hr as Hr' Hw2.
  split; [| split].
  - rewrite run_transferBalances, Hq. cbv zeta.
    rewrite <- Hs, Hb, <- Hw.
    destruct batch as [| o out]; [congruence |].
    rewrite Hsend. reflexivity.
  - rewrite Hw2, <- Hw1. reflexivity.
  - exists (select_event ::
            map (processing_event this) (filter payable snapshot) ++ evs).
    split.
    + rewrite Hw2, <- Hw1. simpl. rewrite <- !app_assoc. reflexivity.
    + simpl. rewrite filter_app, processing_writes_nothing.
      apply store_writes_are_queries, Hf.
Qed.

(** A cycle whose snapshot is read and whose batch the ledger accepts, up
    to the test of the transaction id. *)
Lemma run_transferBalances_sent
      (w w0 : World) (snapshot : list Balance.t)
      (txs : list PendingTransaction.t) (transactionId : option string) :
  run env Database.getAllBalancesExcludingPool w = (Returned snapshot, w0) ->
  payable_outputs snapshot <> [] ->
  (forall h, createTransactions env h
               (mkSettings (payable_outputs snapshot)
                           (trxManager.address this) 0)
             = Returned (txs, mkSummary transactionId)) ->
  accepted env txs ->
  run env (trxManager.transferBalances this) w =
  let w3 := mkWorld (tables w)
                    (history w ++
                     events_until_sent this snapshot txs transactionId) in
  if truthy transactionId
  then run env (trxManager.reset_balances snapshot) w3
  else (Returned tt, w3).
Proof.
  intros Hsnap Hne Hc Hok.
  apply snapshot_returned in Hsnap. destruct Hsnap as [Hq [Hs _]].
  rewrite run_transferBalances, Hq. cbv zeta. rewrite <- Hs.
  destruct (payable_outputs snapshot) as [| o out] eqn:Hout; [congruence |].
  rewrite (run_send_accepted env this _ txs (mkSummary transactionId) _ Hc Hok).
  unfold world_at_send, events_until_sent. cbn [tables history finalTransactionId].
  rewrite <- Hs, Hout, <- !app_assoc. cbn [app].
  reflexivity.
Qed.

Lemma in_broadcast (txs : list PendingTransaction.t) (tx : PendingTransaction.t) :
  In tx txs ->
  In (Ev (Sign tx)) (flat_map broadcast_events txs) /\
  In (Ev (Submit tx)) (flat_map broadcast_events txs).
Proof.
  intro H. split; apply in_flat_map; exists tx; simpl; auto.
Qed.

(** C10.  When [send] signs and broadcasts every transaction and returns
    no transaction id, or an empty one, [transferBalances] returns
    without an error and sends no reset: the relations are as before, so
    the same balances are read by the next snapshot. *)
Theorem falsy_transaction_id_skips_reset
        (w w0 : World) (snapshot : list Balance.t)
        (txs : list PendingTransaction.t) (transactionId : option string) :
  run env Database.getAllBalancesExcludingPool w = (Returned snapshot, w0) ->
  payable_outputs snapshot <> [] ->
  (forall h, createTransactions env h
               (mkSettings (payable_outputs snapshot)
                           (trxManager.address this) 0)
             = Returned (txs, mkSummary transactionId)) ->
  accepted env txs ->
  truthy transactionId = false ->
  exists evs,
    run env (trxManager.transferBalances this) w =
      (Returned tt, mkWorld (tables w) (history w ++ evs)) /\
    (forall tx, In tx txs -> In (Ev (Sign tx)) evs /\ In (Ev (Submit tx)) evs) /\
    filter is_store_write evs = [] /\
    snapshot_of (tables w) = snapshot.
Proof.
  intros Hsnap Hne Hc Hok Hfalsy.
  exists (events_until_sent this snapshot txs transactionId).
  split; [| split; [| split]].
  - rewrite (run_transferBalances_sent _ _ _ _ _ Hsnap Hne Hc Hok).
    cbv zeta. rewrite Hfalsy. reflexivity.
  - intros tx Htx. unfold events_until_sent, send_events.
    destruct (in_broadcast txs tx Htx) as [Hs Hb].
    split; right; apply in_or_app; right; apply in_or_app; left;
      apply in_or_app; right; assumption.
  - unfold events_until_sent. cbn [filter is_store_write select_event].
    rewrite !filter_app, processing_writes_nothing, send_writes_nothing.
    reflexivity.
  - apply snapshot_returned in Hsnap. symmetry. apply Hsnap.
Qed.

(** The relation after a list of resets, row by row. *)
Lemma reset_all_rows (wallets : list string) (rows : list PoolBalanceRow.t) :
  reset_all wallets rows =
  map (fun r =>
         if existsb (String.eqb (PoolBalanceRow.address r)) wallets
         then PoolBalanceRow.mk (PoolBalanceRow.address r) 0
         else r) rows.
Proof.
  revert rows; induction wallets as [| a ws IH]; intro rows.
  - simpl. symmetry. apply map_id.
  - unfold reset_all in *. simpl. rewrite IH, map_map.
    apply map_ext. intro r. unfold set_available_balance.
    destruct (String.eqb (PoolBalanceRow.address r) a); simpl.
    + destruct (existsb _ ws); reflexivity.
    + reflexivity.
Qed.

(** C1, as the code has it.  When the snapshot is read, the ledger takes
    the batch and returns a transaction id that is not empty, and the
    store accepts the resets, the cycle returns without an error; the
    statements it has sent that write are one reset for every address of
    the batch, in batch order, and no payment record; the relation
    [payments] is as before and the relation [balances] has zero at
    every address of the batch and is as before elsewhere. *)
Theorem successful_cycle_resets_batch
        (w w0 : World) (snapshot : list Balance.t)
        (txs : list PendingTransaction.t) (T : string) :
  run env Database.getAllBalancesExcludingPool w = (Returned snapshot, w0) ->
  payable_outputs snapshot <> [] ->
  (forall h, createTransactions env h
               (mkSettings (payable_outputs snapshot)
                           (trxManager.address this) 0)
             = Returned (txs, mkSummary (Some T))) ->
  accepted env txs ->
  T <> "" ->
  resets_accepted env snapshot ->
  exists evs,
    run env (trxManager.transferBalances this) w =
      (Returned tt,
       mkWorld
         (mkTables
            (map (fun r =>
                    if existsb (String.eqb (PoolBalanceRow.address r))
                               (map IPaymentOutput.address
                                    (payable_outputs snapshot))
                    then PoolBalanceRow.mk (PoolBalanceRow.address r) 0
                    else r)
                 (balances (tables w)))
            (payments (tables w)))
         (history w ++ evs)) /\
    filter is_store_write evs =
      map (fun o => reset_event (IPaymentOutput.address o))
          (payable_outputs snapshot).
Proof.
  intros Hsnap Hne Hc Hok HT Hres.
  exists (events_until_sent this snapshot txs (Some T) ++
          flat_map settle_events (filter payable snapshot)).
  split.
  - rewrite (run_transferBalances_sent _ _ _ _ _ Hsnap Hne Hc Hok).
    cbv zeta.
    assert (Ht : truthy (Some T) = true).
    { simpl. destruct (String.eqb T "") eqn:E; auto.
      apply String.eqb_eq in E. contradiction. }
    rewrite Ht, (run_reset_balances_accepted _ _ _ Hres).
    cbn [tables history]. rewrite reset_all_rows, <- app_assoc.
    rewrite payable_outputs_addresses. reflexivity.
  - unfold events_until_sent. cbn [filter is_store_write select_event app].
    rewrite !filter_app, processing_writes_nothing, send_writes_nothing,
      settle_writes_resets.
    unfold payable_outputs. rewrite map_map. reflexivity.
Qed.

(** *** The task of the scheduler *)

(** The world in which the task calls [transferBalances]. *)
Lemma run_callback (w : World) :
  run env (IndexMinutes.callback true this) w =
  match run env (trxManager.transferBalances this) (started w) with
  | (Returned _, w') => (Returned tt, w')
  | (Thrown e, w') =>
      (Returned tt,
       mkWorld (tables w')
               (history w' ++ [Ev (MonitoringError (TransactionManagerError e))]))
  end.
Proof.
  unfold IndexMinutes.callback. rewrite run_bind, run_log, run_try_catch.
  fold (started w).
  destruct (run env (trxManager.transferBalances this) (started w))
    as [[[] | e] w']; reflexivity.
Qed.

(** The second loop stops at the first reset the store rejects. *)
Lemma run_reset_balances_rejected
      (pre post : list Balance.t) (b : Balance.t) (e : Error) (w : World) :
  resets_accepted env pre ->
  payable b = true ->
  (forall h, query_rejects env h
               (UpdateBalanceWhereAddress 0 (Balance.address b)) = Some e) ->
  run env (trxManager.reset_balances (pre ++ b :: post)) w =
  (Thrown e,
   mkWorld (mkTables (reset_all (map Balance.address (filter payable pre))
                                (balances (tables w)))
                     (payments (tables w)))
           (history w ++ flat_map settle_events (filter payable pre)
                      ++ [reset_event (Balance.address b)])).
Proof.
  intros Hpre Hb Hrej.
  rewrite run_reset_balances_app, (run_reset_balances_accepted _ _ _ Hpre).
  rewrite run_reset_balances_cons, Hb, run_resetBalanceByAddress, Hrej.
  cbn [tables history]. rewrite <- app_assoc. reflexivity.
Qed.

(** C5, as the code has it.  When a reset is rejected after the ledger
    took the batch, the cycle stops there: the balances before it in the
    snapshot have been reset, the rejected reset is the last statement of
    the cycle, so no balance after it in the snapshot is reset; the task
    of the scheduler catches the error, writes it to the monitor and
    returns without an error. *)
Theorem rejected_reset_stops_cycle
        (w : World) (pre post : list Balance.t) (b : Balance.t)
        (txs : list PendingTransaction.t) (T : string) (e : Error) :
  (forall h, query_rejects env h (SelectBalancesWhereAddressNot "pool") = None) ->
  snapshot_of (tables w) = pre ++ b :: post ->
  (forall h, createTransactions env h
               (mkSettings (payable_outputs (pre ++ b :: post))
                           (trxManager.address this) 0)
             = Returned (txs, mkSummary (Some T))) ->
  accepted env txs ->
  T <> "" ->
  resets_accepted env pre ->
  payable b = true ->
  (forall h, query_rejects env h
               (UpdateBalanceWhereAddress 0 (Balance.address b)) = Some e) ->
  exists evs,
    run env (IndexMinutes.callback true this) w =
      (Returned tt,
       mkWorld
         (mkTables (reset_all (map Balance.address (filter payable pre))
                              (balances (tables w)))
                   (payments (tables w)))
         (history w ++ evs ++
          [Ev (MonitoringError (TransactionManagerError e))])) /\
    filter is_store_write evs =
      map (fun x => reset_event (Balance.address x)) (filter payable pre)
      ++ [reset_event (Balance.address b)].
Proof.
  intros Hsel Hsnap Hc Hok HT Hpre Hb Hrej.
  set (snapshot := pre ++ b :: post) in *.
  exists ([Ev (MonitoringLog RunningScheduledTransfer)] ++
          events_until_sent this snapshot txs (Some T) ++
          flat_map settle_events (filter payable pre) ++
          [reset_event (Balance.address b)]).
  assert (Hne : payable_outputs snapshot <> []).
  { unfold payable_outputs, snapshot. rewrite filter_app. simpl.
    rewrite Hb, map_app. simpl. intro H.
    apply app_eq_nil in H. destruct H as [_ H]. discriminate. }
  assert (Hget : run env Database.getAllBalancesExcludingPool (started w) =
                 (Returned snapshot,
                  mkWorld (tables (started w))
                          (history (started w) ++ [select_event]))).
  { rewrite run_getAllBalancesExcludingPool, Hsel.
    unfold started at 1. cbn [tables]. rewrite Hsnap. reflexivity. }
  assert (Ht : truthy (Some T) = true).
  { simpl. destruct (String.eqb T "") eqn:E; auto.
    apply String.eqb_eq in E. contradiction. }
  split.
  - rewrite run_callback.
    rewrite (run_transferBalances_sent _ _ _ _ _ Hget Hne Hc Hok).
    cbv zeta. rewrite Ht.
    unfold snapshot at 1.
    rewrite (run_reset_balances_rejected _ _ _ _ _ Hpre Hb Hrej).
    unfold started. cbn [tables history].
    rewrite <- !app_assoc. reflexivity.
  - unfold events_until_sent.
    cbn [filter is_store_write select_event app].
    rewrite !filter_app, processing_writes_nothing, send_writes_nothing,
      settle_writes_resets.
    reflexivity.
Qed.

End Cycle.

(** ** The snapshot statement *)

Section Snapshot.

Variable env : Env.

Lemma snapshot_without_pool_key (t : Tables) :
  ~ In "pool" (map Balance.address (snapshot_of t)).
Proof.
  unfold snapshot_of. rewrite map_map. intro H.
  apply in_map_iff in H. destruct H as [r [Hr Hin]].
  apply filter_In in Hin. destruct Hin as [_ Hp].
  unfold not_pool in Hp. simpl in Hr. rewrite Hr in Hp. discriminate.
Qed.

(** C9, as the code has it.  When the store accepts the statement,
    [getAllBalancesExcludingPool] returns exactly the rows of [balances]
    whose address is not the text [pool], in the order of the relation,
    and changes nothing; the address [pool] is in no snapshot. *)
Theorem snapshot_excludes_pool_key (w : World) :
  query_rejects env (history w) (SelectBalancesWhereAddressNot "pool") = None ->
  run env Database.getAllBalancesExcludingPool w =
    (Returned
       (map Database.of_row
            (filter (fun r => negb (String.eqb (PoolBalanceRow.address r) "pool"))
                    (balances (tables w)))),
     mkWorld (tables w) (history w ++ [select_event])) /\
  ~ In "pool"
       (map Balance.address
            (map Database.of_row
                 (filter (fun r => negb (String.eqb (PoolBalanceRow.address r) "pool"))
                         (balances (tables w))))).
Proof.
  intro Hq. split.
  - rewrite run_getAllBalancesExcludingPool, Hq. reflexivity.
  - apply (snapshot_without_pool_key (tables w)).
Qed.

End Snapshot.

(** ** The cadence *)

Lemma minutes_interval_thrown (v : Z) :
  (exists e, IndexMinutes.paymentInterval (Some v) = Thrown e) <->
  v <> 0 /\ (v < 5 \/ 1440 < v).
Proof.
  unfold IndexMinutes.paymentInterval, or_default.
  destruct (v =? 0) eqn:E0.
  - apply Z.eqb_eq in E0. simpl. split.
    + intros [e H]. discriminate.
    + intros [H _]. contradiction.
  - apply Z.eqb_neq in E0.
    destruct ((v <? 5) || (v >? 1440)) eqn:E.
    + apply orb_true_iff in E. rewrite Z.ltb_lt, Z.gtb_lt in E.
      split; [intros _; split; assumption | intros _; eexists; reflexivity].
    + apply orb_false_iff in E. rewrite Z.ltb_ge, Z.gtb_ltb, Z.ltb_ge in E.
      split; [intros [e H]; discriminate | intros [_ H]; lia].
Qed.

Lemma hours_interval_thrown (v : Z) :
  (exists e, IndexHours.paymentInterval (Some v) = Thrown e) <->
  v <> 0 /\ (v < 1 \/ 24 < v).
Proof.
  unfold IndexHours.paymentInterval, or_default.
  destruct (v =? 0) eqn:E0.
  - apply Z.eqb_eq in E0. simpl. split.
    + intros [e H]. discriminate.
    + intros [H _]. contradiction.
  - apply Z.eqb_neq in E0.
    destruct ((v <? 1) || (v >? 24)) eqn:E.
    + apply orb_true_iff in E. rewrite Z.ltb_lt, Z.gtb_lt in E.
      split; [intros _; split; assumption | intros _; eexists; reflexivity].
    + apply orb_false_iff in E. rewrite Z.ltb_ge, Z.gtb_ltb, Z.ltb_ge in E.
      split; [intros [e H]; discriminate | intros [_ H]; lia].
Qed.

(** C7, as the code has it.  In the entry point that counts minutes the
    value goes into the minutes field of the schedule; an absent value and
    the value zero give 30; startup throws exactly when the configured
    value is not zero and lies outside 5 to 1440, and otherwise keeps the
    value.  In the entry point that counts hours an absent value and zero
    give 2, and startup throws exactly when the configured value is not
    zero and lies outside 1 to 24. *)
Theorem payment_interval_check :
  (forall p, minute (IndexMinutes.schedule p) = StarSlash p) /\
  IndexMinutes.paymentInterval None = Returned 30 /\
  IndexMinutes.paymentInterval (Some 0) = Returned 30 /\
  (forall v, (exists e, IndexMinutes.paymentInterval (Some v) = Thrown e) <->
             v <> 0 /\ (v < 5 \/ 1440 < v)) /\
  (forall v, v <> 0 -> 5 <= v <= 1440 ->
             IndexMinutes.paymentInterval (Some v) = Returned v) /\
  IndexHours.paymentInterval None = Returned 2 /\
  (forall v, (exists e, IndexHours.paymentInterval (Some v) = Thrown e) <->
             v <> 0 /\ (v < 1 \/ 24 < v)) /\
  IndexHours.paymentInterval (Some 0) = Returned 2.
Proof.
  split; [reflexivity |].
  split; [reflexivity |].
  split; [reflexivity |].
  split; [exact minutes_interval_thrown |].
  split; [| split; [reflexivity |
                    split; [exact hours_interval_thrown | reflexivity]]].
  intros v Hv Hr.
  unfold IndexMinutes.paymentInterval, or_default.
  destruct (v =? 0) eqn:E0; [apply Z.eqb_eq in E0; contradiction |].
  destruct (v <? 5) eqn:E1; [apply Z.ltb_lt in E1; lia |].
  destruct (v >? 1440) eqn:E2; [rewrite Z.gtb_gt in E2; lia |].
  reflexivity.
Qed.

Lemma rem_30_of_minute (m : Z) :
  0 <= m < 60 -> (Z.rem m 30 =? 0) = ((m =? 0) || (m =? 30)).
Proof.
  intro Hm. rewrite Z.rem_mod_nonneg by lia.
  destruct (Z.eq_dec m 0) as [-> | H0]; [reflexivity |].
  destruct (Z.eq_dec m 30) as [-> | H30]; [reflexivity |].
  assert (m mod 30 <> 0).
  { intro H. apply Z.mod_divide in H; [| lia]. destruct H as [q Hq]. lia. }
  destruct (m mod 30 =? 0) eqn:E; [apply Z.eqb_eq in E; contradiction |].
  destruct (m =? 0) eqn:E0; [apply Z.eqb_eq in E0; contradiction |].
  destruct (m =? 30) eqn:E30; [apply Z.eqb_eq in E30; contradiction |].
  reflexivity.
Qed.

(** The entry point that counts hours takes no cadence of 30. *)
Lemma hours_entry_point_rejects_30 :
  IndexHours.paymentInterval (Some 30) =
  Thrown "paymentInterval must be between 1 and 24 hours.".
Proof. reflexivity. Qed.

(** With a cadence of 30 minutes the schedule of the entry point that
    counts minutes matches second 0 of minute 0 and of minute 30 of every
    hour and no second of minute 15: it matches exactly when the time of
    day is a multiple of 30 minutes. *)
Lemma half_hour_schedule (h m s : Z) :
  0 <= h < 24 -> 0 <= m < 60 -> 0 <= s < 60 ->
  IndexMinutes.paymentInterval (Some 30) = Returned 30 /\
  IndexMinutes.fires 30 true (mkDate h 0 0) = true /\
  IndexMinutes.fires 30 true (mkDate h 30 0) = true /\
  IndexMinutes.fires 30 true (mkDate h 15 s) = false /\
  (IndexMinutes.fires 30 true (mkDate h m s) = true <->
   (h * 3600 + m * 60 + s) mod (30 * 60) = 0).
Proof.
  intros Hh Hm Hs.
  split; [reflexivity |].
  split; [reflexivity |].
  split; [reflexivity |].
  split.
  { unfold IndexMinutes.fires, cron_matches. simpl.
    rewrite !andb_true_r, andb_false_r. reflexivity. }
  unfold IndexMinutes.fires, cron_matches. simpl.
  unfold rem_is_zero. simpl (30 =? 0).
  rewrite !andb_true_r, rem_30_of_minute by exact Hm.
  rewrite andb_true_iff, orb_true_iff, !Z.eqb_eq.
  split.
  - intros [-> [-> | ->]].
    + replace (h * 3600 + 0 * 60 + 0) with (h * 2 * 1800) by lia.
      apply Z.mod_mul. lia.
    + replace (h * 3600 + 30 * 60 + 0) with ((h * 2 + 1) * 1800) by lia.
      apply Z.mod_mul. lia.
  - intro H. apply Z.mod_divide in H; [| lia]. destruct H as [q Hq].
    assert (Hs0 : s = 0).
    { assert (Hd : (60 | s)).
      { exists (q * 30 - h * 60 - m). lia. }
      destruct Hd as [k Hk]. lia. }
    subst s. split; [reflexivity |].
    assert (Hd : (30 | m)).
    { exists (q - h * 2). lia. }
    destruct Hd as [k Hk]. lia.
Qed.

(** ** Cycles that overlap *)

Section Overlap.

Variable env : Env.






(** At a payment time the task of the entry point that counts hours is the
    task of the entry point that counts minutes: it reads the same flag and
    nothing else. *)
Lemma hours_callback_at_payment_time
      (paymentInterval : Z) (rpcConnected : bool) (this : trxManager.t)
      (d : Date) :
  IndexHours.isPaymentTime paymentInterval d = true ->
  IndexHours.callback paymentInterval rpcConnected this d =
  IndexMinutes.callback rpcConnected this.
Proof.
  intro Hd. unfold IndexHours.callback, IndexMinutes.callback.
  rewrite Hd. destruct rpcConnected; reflexivity.
Qed.

(** The task of the scheduler never throws. *)
Lemma callback_returns (rpcConnected : bool) (this : trxManager.t) (w : World) :
  fst (run env (IndexMinutes.callback rpcConnected this) w) = Returned tt.
Proof.
  destruct rpcConnected; [| reflexivity].
  rewrite run_callback.
  destruct (run env (trxManager.transferBalances this) (started w))
    as [[[] | e] w']; reflexivity.
Qed.


End Overlap.

(** ** The cycle on the worlds of [Scenario] *)

Lemma reset_event_found (wallet : string) (l : list Event) :
  In (reset_event wallet) l -> existsb (is_reset_of wallet) l = true.
Proof.
  intro H. apply existsb_exists. exists (reset_event wallet).
  split; [exact H |]. simpl. apply String.eqb_refl.
Qed.

(** C1 fails on the code.  The ledger takes the batch [A 500, C 1200] and
    returns the id [T1]; the cycle returns, the statements it has sent that
    write are the two resets, and the relation [payments] has no row for
    an address of the batch. *)
Lemma successful_cycle_records_no_payment :
  fst (run Scenario.accepting (trxManager.transferBalances Scenario.manager)
           Scenario.start) = Returned tt /\
  filter is_store_write
         (history (snd (run Scenario.accepting
                            (trxManager.transferBalances Scenario.manager)
                            Scenario.start)))
    = [reset_event "A"; reset_event "C"] /\
  ~ (forall o, In o Scenario.batch ->
       exists row,
         In row (payments (tables (snd (run Scenario.accepting
                    (trxManager.transferBalances Scenario.manager)
                    Scenario.start)))) /\
         PaymentRow.address row = IPaymentOutput.address o /\
         PaymentRow.amount row = IPaymentOutput.amount o /\
         PaymentRow.tx_id row = "T1").
Proof.
  split; [reflexivity |].
  split; [reflexivity |].
  intro H.
  destruct (H (IPaymentOutput.mk "A" 500) (or_introl eq_refl)) as [row [Hin _]].
  exact Hin.
Qed.

(** C5 fails on the code.  The ledger takes the batch [A 500, C 1200]; the
    store rejects the reset of [A]; the task returns, and [C], the other
    address of the batch, gets no reset. *)
Lemma rejected_reset_skips_later_addresses :
  fst (run Scenario.reset_of_A_rejected
           (IndexMinutes.callback true Scenario.manager) Scenario.start)
    = Returned tt /\
  In (Ev (Submit Scenario.T1))
     (history (snd (run Scenario.reset_of_A_rejected
                        (IndexMinutes.callback true Scenario.manager)
                        Scenario.start))) /\
  ~ (forall a, In a (map IPaymentOutput.address Scenario.batch) ->
               a <> "A" ->
               In (reset_event a)
                  (history (snd (run Scenario.reset_of_A_rejected
                                     (IndexMinutes.callback true Scenario.manager)
                                     Scenario.start)))).
Proof.
  split; [reflexivity |].
  split; [simpl; tauto |].
  intro H.
  assert (Hc : In "C" (map IPaymentOutput.address Scenario.batch))
    by (simpl; tauto).
  assert (Hne : "C" <> "A") by discriminate.
  specialize (H "C" Hc Hne).
  apply reset_event_found in H. vm_compute in H. discriminate.
Qed.


(** C7 fails on the code.  A configured value of zero is outside 5 to
    1440, and startup does not throw: it goes on with 30. *)
Lemma zero_interval_is_not_rejected :
  IndexMinutes.paymentInterval (Some 0) = Returned 30 /\
  ~ ((exists e, IndexMinutes.paymentInterval (Some 0) = Thrown e) <->
     ~ (5 <= 0 <= 1440)).
Proof.
  split; [reflexivity |].
  intros [_ H].
  destruct H as [e He]; [lia | discriminate].
Qed.

(** C9 fails on the code.  A row under the address derived from the pool's
    private key is in the snapshot. *)
Lemma treasury_address_in_snapshot :
  trxManager.address Scenario.manager = "vecno:qtreasury" /\
  fst (run Scenario.accepting Database.getAllBalancesExcludingPool
           Scenario.with_treasury_row)
    = Returned [Balance.mk "vecno:qtreasury" "vecno:qtreasury" 700;
                Balance.mk "A" "A" 500] /\
  ~ (forall snapshot,
       fst (run Scenario.accepting Database.getAllBalancesExcludingPool
                Scenario.with_treasury_row) = Returned snapshot ->
       ~ In (trxManager.address Scenario.manager)
            (map Balance.address snapshot)).
Proof.
  split; [reflexivity |].
  split; [reflexivity |].
  intro H. apply (H _ eq_refl). simpl. tauto.
Qed.

(** ** The theorems at the worlds of [Scenario] *)

(** The batch of the snapshot [A 500, B 0, C 1200]. *)
Lemma batcher_output_witness :
  NoDup (map Balance.address Scenario.snapshot) /\
  NoDup (map IPaymentOutput.address
             (map output_of (filter payable Scenario.snapshot))).
Proof.
  assert (H : NoDup (map Balance.address Scenario.snapshot)).
  { simpl. repeat constructor; simpl; intuition discriminate. }
  split; [exact H |].
  exact (proj1 (proj2 (proj2 (proj2
           (batcher_output Scenario.accepting Scenario.manager
                           Scenario.snapshot Scenario.start)))) H).
Defined.

(** A cycle over [A 0, B -5]. *)
Lemma empty_batch_is_no_op_witness :
  run Scenario.accepting (trxManager.transferBalances Scenario.manager)
      Scenario.idle =
  (Returned tt,
   mkWorld (tables Scenario.idle)
           (history Scenario.idle ++
            [select_event; Ev (MonitoringLog NoPaymentsFound)])).
Proof.
  apply (empty_batch_is_no_op Scenario.accepting Scenario.manager
           Scenario.idle
           (mkWorld (tables Scenario.idle) [select_event])
           [Balance.mk "A" "A" 0; Balance.mk "B" "B" (-5)]).
  - reflexivity.
  - repeat constructor; simpl; lia.
Defined.

(** A cycle in which the broadcast of the second transaction is rejected. *)
Lemma failed_submission_leaves_store_witness :
  exists w2,
    run Scenario.second_broadcast_rejected
        (trxManager.transferBalances Scenario.manager) Scenario.start
      = (Thrown "broadcast failed", w2) /\
    tables w2 = tables Scenario.start /\
    exists evs, history w2 = history Scenario.start ++ evs /\
                filter is_store_write evs = [].
Proof.
  eexists.
  apply (failed_submission_leaves_store
           Scenario.second_broadcast_rejected Scenario.manager
           Scenario.start
           (snd (run Scenario.second_broadcast_rejected
                     Database.getAllBalancesExcludingPool Scenario.start))
           (snd (run Scenario.second_broadcast_rejected
                     (trxManager.collect_payments Scenario.manager
                                                  Scenario.snapshot [])
                     (snd (run Scenario.second_broadcast_rejected
                               Database.getAllBalancesExcludingPool
                               Scenario.start))))
           _ Scenario.snapshot Scenario.batch "broadcast failed").
  - reflexivity.
  - reflexivity.
  - discriminate.
  - reflexivity.
Defined.

(** A cycle in which the ledger reports no final transaction id. *)
Lemma falsy_transaction_id_skips_reset_witness :
  exists evs,
    run Scenario.no_final_id (trxManager.transferBalances Scenario.manager)
        Scenario.start =
      (Returned tt,
       mkWorld (tables Scenario.start) (history Scenario.start ++ evs)) /\
    (forall tx, In tx [Scenario.T1] ->
                In (Ev (Sign tx)) evs /\ In (Ev (Submit tx)) evs) /\
    filter is_store_write evs = [] /\
    snapshot_of (tables Scenario.start) = Scenario.snapshot.
Proof.
  apply (falsy_transaction_id_skips_reset
           Scenario.no_final_id Scenario.manager Scenario.start
           (mkWorld (tables Scenario.start) [select_event])
           Scenario.snapshot [Scenario.T1] None).
  - reflexivity.
  - discriminate.
  - intro h. reflexivity.
  - intros h tx _. split; reflexivity.
  - reflexivity.
Defined.

(** A cycle in which store and ledger accept everything. *)
Lemma successful_cycle_resets_batch_witness :
  exists evs,
    run Scenario.accepting (trxManager.transferBalances Scenario.manager)
        Scenario.start =
      (Returned tt,
       mkWorld
         (mkTables [PoolBalanceRow.mk "A" 0; PoolBalanceRow.mk "B" 0;
                    PoolBalanceRow.mk "pool" 7; PoolBalanceRow.mk "C" 0]
                   [])
         (history Scenario.start ++ evs)) /\
    filter is_store_write evs = [reset_event "A"; reset_event "C"].
Proof.
  apply (successful_cycle_resets_batch
           Scenario.accepting Scenario.manager Scenario.start
           (mkWorld (tables Scenario.start) [select_event])
           Scenario.snapshot [Scenario.T1] "T1").
  - reflexivity.
  - discriminate.
  - intro h. reflexivity.
  - intros h tx _. split; reflexivity.
  - discriminate.
  - intros h b _ _. reflexivity.
Defined.

(** A cycle in which the store rejects the reset of [A]. *)
Lemma rejected_reset_stops_cycle_witness :
  exists evs,
    run Scenario.reset_of_A_rejected
        (IndexMinutes.callback true Scenario.manager) Scenario.start =
      (Returned tt,
       mkWorld (tables Scenario.start)
               (history Scenario.start ++ evs ++
                [Ev (MonitoringError
                       (TransactionManagerError "store unavailable"))])) /\
    filter is_store_write evs = [reset_event "A"].
Proof.
  apply (rejected_reset_stops_cycle
           Scenario.reset_of_A_rejected Scenario.manager Scenario.start
           [] [Balance.mk "B" "B" 0; Balance.mk "C" "C" 1200]
           (Balance.mk "A" "A" 500) [Scenario.T1] "T1" "store unavailable").
  - intro h. reflexivity.
  - reflexivity.
  - intro h. reflexivity.
  - intros h tx _. split; reflexivity.
  - discriminate.
  - intros h b [].
  - reflexivity.
  - intro h. reflexivity.
Defined.

(** The snapshot of the rows [A, B, pool, C]. *)
Lemma snapshot_excludes_pool_key_witness :
  run Scenario.accepting Database.getAllBalancesExcludingPool Scenario.start =
    (Returned Scenario.snapshot,
     mkWorld (tables Scenario.start) [select_event]) /\
  ~ In "pool" (map Balance.address Scenario.snapshot).
Proof.
  apply (snapshot_excludes_pool_key Scenario.accepting Scenario.start).
  reflexivity.
Defined.


(** ** More on [send] *)

Section Broadcast.

Variable env : Env.
Variable this : trxManager.t.

(** The transactions the ledger accepts are behind the loop before it
    comes to the next one. *)
Lemma run_submit_all_after_accepted
      (pre l : list PendingTransaction.t) (w : World) :
  accepted env pre ->
  run env (trxManager.submit_all (pre ++ l)) w =
  run env (trxManager.submit_all l)
      (mkWorld (tables w) (history w ++ flat_map broadcast_events pre)).
Proof.
  revert w; induction pre as [| tx rest IH]; intros w Hok.
  - simpl. rewrite app_nil_r. destruct w; reflexivity.
  - assert (Hrest : accepted env rest).
    { intros h t Ht. apply Hok. now right. }
    cbn [app trxManager.submit_all].
    rewrite run_bind. cbn [run await handle].
    destruct (Hok (history w) tx (or_introl eq_refl)) as [Hs _].
    rewrite Hs. cbn [rejection run].
    rewrite run_bind. cbn [run await handle history tables].
    destruct (Hok (history w ++ [Ev (Sign tx)]) tx (or_introl eq_refl))
      as [_ Hb].
    rewrite Hb. cbn [rejection run].
    rewrite run_bind. cbn [run call handle history tables].
    rewrite (IH _ Hrest). cbn [history tables flat_map broadcast_events].
    rewrite <- !app_assoc. reflexivity.
Qed.

(** [send] up to the loop over the transactions. *)
Lemma run_send_created
      (out : list IPaymentOutput.t) (txs : list PendingTransaction.t)
      (summary : GeneratorSummary) (w : World) :
  (forall h, createTransactions env h
               (mkSettings out (trxManager.address this) 0)
             = Returned (txs, summary)) ->
  run env (trxManager.send this out) w =
  match run env (trxManager.submit_all txs)
            (mkWorld (tables w) (history w ++ send_events this out [])) with
  | (Returned _, w') => (Returned (finalTransactionId summary), w')
  | (Thrown e, w') => (Thrown e, w')
  end.
Proof.
  intro Hc. unfold trxManager.send.
  rewrite run_bind. simpl run at 1. cbv iota beta.
  rewrite run_rethrow, run_bind. simpl run at 1.
  rewrite Hc. cbn [run]. rewrite run_bind.
  unfold send_events. cbn [flat_map app tables history].
  rewrite <- app_assoc. reflexivity.
Qed.

(** X1.  When the ledger rejects the broadcast of a transaction of the
    batch, [send] throws that error; the transactions before it have been
    signed and broadcast, each followed by its wait, and no transaction
    after it is signed or broadcast.  Nothing is taken back. *)
Theorem send_stops_at_rejected_broadcast
        (out : list IPaymentOutput.t)
        (pre post : list PendingTransaction.t) (tx : PendingTransaction.t)
        (summary : GeneratorSummary) (e : Error) (w : World) :
  (forall h, createTransactions env h
               (mkSettings out (trxManager.address this) 0)
             = Returned (pre ++ tx :: post, summary)) ->
  accepted env pre ->
  (forall h, sign_rejects env h tx = None) ->
  (forall h, submit_rejects env h tx = Some e) ->
  run env (trxManager.send this out) w =
  (Thrown e,
   mkWorld (tables w)
           (history w ++ send_events this out pre ++
            [Ev (Sign tx); Ev (Submit tx)])).
Proof.
  intros Hc Hpre Hs Hb.
  rewrite (run_send_created _ _ _ _ Hc).
  rewrite (run_submit_all_after_accepted _ _ _ Hpre).
  cbn [trxManager.submit_all].
  rewrite run_bind. cbn [run await handle]. rewrite Hs. cbn [rejection run].
  rewrite run_bind. cbn [run await handle]. rewrite Hb. cbn [rejection run].
  unfold send_events. cbn [flat_map app tables history].
  rewrite <- !app_assoc. reflexivity.
Qed.

(** X2.  When the ledger does not sign a transaction of the batch, [send]
    throws that error; the transactions before it have been signed and
    broadcast, and the one that was not signed is not broadcast, nor is
    any after it. *)
Theorem send_stops_at_rejected_signature
        (out : list IPaymentOutput.t)
        (pre post : list PendingTransaction.t) (tx : PendingTransaction.t)
        (summary : GeneratorSummary) (e : Error) (w : World) :
  (forall h, createTransactions env h
               (mkSettings out (trxManager.address this) 0)
             = Returned (pre ++ tx :: post, summary)) ->
  accepted env pre ->
  (forall h, sign_rejects env h tx = Some e) ->
  run env (trxManager.send this out) w =
  (Thrown e,
   mkWorld (tables w)
           (history w ++ send_events this out pre ++ [Ev (Sign tx)])).
Proof.
  intros Hc Hpre Hs.
  rewrite (run_send_created _ _ _ _ Hc).
  rewrite (run_submit_all_after_accepted _ _ _ Hpre).
  cbn [trxManager.submit_all].
  rewrite run_bind. cbn [run await handle]. rewrite Hs. cbn [rejection run].
  unfold send_events. cbn [flat_map app tables history].
  rewrite <- !app_assoc. reflexivity.
Qed.

(** X3.  When the ledger accepts every transaction, [send] returns the
    final transaction id of the summary, and what it has done is, in this
    order: the line to the console, the call of [createTransactions], and
    then for one transaction after the other, in the order the ledger gave
    them, the signature, the broadcast and the wait of five seconds, each
    transaction coming after the wait of the one before. *)
Theorem send_broadcasts_in_order
        (out : list IPaymentOutput.t) (txs : list PendingTransaction.t)
        (summary : GeneratorSummary) (w : World) :
  (forall h, createTransactions env h
               (mkSettings out (trxManager.address this) 0)
             = Returned (txs, summary)) ->
  accepted env txs ->
  run env (trxManager.send this out) w =
  (Returned (finalTransactionId summary),
   mkWorld (tables w)
           (history w ++
            [Ev (ConsoleLog out);
             Ev (CreateTransactions
                   (mkSettings out (trxManager.address this) 0))] ++
            flat_map (fun tx => [Ev (Sign tx); Ev (Submit tx);
                                 Ev (SetTimeout 5000)])
                     txs)).
Proof.
  intros Hc Hok.
  rewrite (run_send_accepted env this _ _ _ _ Hc Hok).
  reflexivity.
Qed.

(** X4.  Whatever the ledger answers, [send] sends no statement to the
    store and leaves the relations as they are. *)
Theorem send_never_touches_store
        (out : list IPaymentOutput.t) (w : World) :
  tables (snd (run env (trxManager.send this out) w)) = tables w /\
  exists evs,
    history (snd (run env (trxManager.send this out) w)) = history w ++ evs /\
    filter is_client_query evs = [].
Proof.
  destruct (send_frame env this out w) as [r [evs [Hr Hq]]].
  rewrite Hr. split; [reflexivity |].
  exists evs. split; [reflexivity | exact Hq].
Qed.

End Broadcast.

(** ** What a cycle can do, whatever the store and the ledger answer *)

Section AnyCycle.

Variable env : Env.
Variable this : trxManager.t.

Lemma submit_all_shape (txs : list PendingTransaction.t) (w : World) :
  exists r evs,
    run env (trxManager.submit_all txs) w =
      (r, mkWorld (tables w) (history w ++ evs)) /\
    filter is_client_query evs = [] /\
    filter is_create_transactions evs = [].
Proof.
  revert w; induction txs as [| tx rest IH]; intro w.
  - exists (Returned tt), []. cbn [trxManager.submit_all run].
    rewrite app_nil_r. destruct w; auto.
  - cbn [trxManager.submit_all].
    rewrite run_bind. cbn [run await handle].
    destruct (sign_rejects env (history w) tx) as [e |]; cbn [rejection run].
    { exists (Thrown e), [Ev (Sign tx)]. auto. }
    rewrite run_bind. cbn [run await handle history tables].
    destruct (submit_rejects env (history w ++ [Ev (Sign tx)]) tx) as [e |];
      cbn [rejection run].
    { exists (Thrown e), [Ev (Sign tx); Ev (Submit tx)].
      rewrite <- app_assoc. auto. }
    rewrite run_bind. cbn [run call handle history tables].
    match goal with
    | |- context [run env (trxManager.submit_all rest) ?w1] =>
        destruct (IH w1) as [r [evs [Hr [Hq Hc]]]]
    end.
    exists r, (broadcast_events tx ++ evs).
    rewrite Hr. cbn [tables history]. rewrite <- !app_assoc.
    cbn [broadcast_events app filter is_client_query is_create_transactions].
    auto.
Qed.

Lemma send_shape (out : list IPaymentOutput.t) (w : World) :
  exists r evs,
    run env (trxManager.send this out) w =
      (r, mkWorld (tables w) (history w ++ evs)) /\
    filter is_client_query evs = [] /\
    filter is_create_transactions evs =
      [Ev (CreateTransactions (mkSettings out (trxManager.address this) 0))].
Proof.
  unfold trxManager.send.
  rewrite run_bind. simpl run at 1. cbv iota beta.
  rewrite run_rethrow, run_bind. simpl run at 1.
  destruct (createTransactions env _ _) as [[txs summary] | e]; cbn [run].
  - rewrite run_bind.
    match goal with
    | |- context [run env (trxManager.submit_all txs) ?w1] =>
        destruct (submit_all_shape txs w1) as [r [evs [Hr [Hq Hc]]]]
    end.
    rewrite Hr. cbn [tables history].
    exists (match r with
            | Returned _ => Returned (finalTransactionId summary)
            | Thrown e => Thrown e
            end),
           (send_events this out [] ++ evs).
    unfold send_events. cbn [flat_map app].
    rewrite <- !app_assoc.
    cbn [app filter is_client_query is_create_transactions].
    rewrite Hq, Hc. destruct r; auto.
  - exists (Thrown e), (send_events this out []).
    unfold send_events. cbn [flat_map app tables history].
    rewrite <- app_assoc. auto.
Qed.

Lemma tables_eta (t : Tables) : mkTables (balances t) (payments t) = t.
Proof. destruct t; reflexivity. Qed.

Lemma reset_balances_shape (l : list Balance.t) (w : World) :
  exists r evs j k,
    run env (trxManager.reset_balances l) w =
      (r, mkWorld
            (mkTables
               (reset_all (firstn k (map Balance.address (filter payable l)))
                          (balances (tables w)))
               (payments (tables w)))
            (history w ++ evs)) /\
    filter is_store_write evs =
      firstn j (map reset_event (map Balance.address (filter payable l))) /\
    (k <= j)%nat /\
    filter is_create_transactions evs = [].
Proof.
  revert w; induction l as [| b rest IH]; intro w.
  - exists (Returned tt), [], O, O. cbn. rewrite app_nil_r, tables_eta.
    destruct w; auto.
  - rewrite run_reset_balances_cons. cbn [filter].
    destruct (payable b) eqn:Hb.
    + rewrite run_resetBalanceByAddress.
      destruct (query_rejects env (history w) _) as [e |].
      * exists (Thrown e), [reset_event (Balance.address b)], 1%nat, O.
        cbn. rewrite tables_eta. auto.
      * match goal with
        | |- context [run env (trxManager.reset_balances rest) ?w1] =>
            destruct (IH w1) as [r [evs [j [k [Hr [Hw [Hle Hc]]]]]]]
        end.
        exists r, (settle_events b ++ evs), (S j), (S k).
        rewrite Hr. cbn [tables history balances payments].
        rewrite <- !app_assoc.
        cbn [settle_events app filter is_store_write reset_event map firstn
             is_create_transactions].
        rewrite Hw, Hc. repeat split; auto. lia.
    + apply IH.
Qed.

Lemma processing_creates_nothing (l : list Balance.t) :
  filter is_create_transactions (map (processing_event this) l) = [].
Proof. induction l; simpl; auto. Qed.

(** One cycle, whatever the answers. *)
Lemma cycle_shape (w : World) :
  exists r evs j k,
    run env (trxManager.transferBalances this) w =
      (r, mkWorld
            (mkTables
               (reset_all (firstn k (paid_addresses (tables w)))
                          (balances (tables w)))
               (payments (tables w)))
            (history w ++ evs)) /\
    filter is_store_write evs =
      firstn j (map reset_event (paid_addresses (tables w))) /\
    (k <= j)%nat /\
    (filter is_create_transactions evs = [] /\ j = O \/
     filter is_create_transactions evs =
       [Ev (CreateTransactions
              (mkSettings (payable_outputs (snapshot_of (tables w)))
                          (trxManager.address this) 0))]).
Proof.
  rewrite run_transferBalances.
  destruct (query_rejects env (history w) _) as [e |].
  { exists (Thrown e), [select_event], O, O.
    cbn. rewrite tables_eta.
    split; [reflexivity | split; [reflexivity | split; [lia |]]].
    left. split; reflexivity. }
  cbv zeta.
  destruct (payable_outputs (snapshot_of (tables w))) as [| o out] eqn:Hout.
  { exists (Returned tt),
           (select_event ::
            map (processing_event this) (filter payable (snapshot_of (tables w)))
            ++ [Ev (MonitoringLog NoPaymentsFound)]),
           O, O.
    unfold world_at_send. cbn [history tables firstn reset_all fold_left].
    rewrite tables_eta, <- app_assoc.
    cbn [app filter is_store_write is_create_transactions select_event].
    rewrite !filter_app, processing_writes_nothing, processing_creates_nothing.
    split; [reflexivity | split; [reflexivity | split; [lia |]]].
    left. split; reflexivity. }
  destruct (send_shape (o :: out) (world_at_send this w))
    as [r [evs [Hr [Hq Hc]]]].
  rewrite Hr. unfold world_at_send in *. cbn [tables history] in *.
  pose proof (store_writes_are_queries _ Hq) as Hsw.
  destruct r as [transactionId | e].
  - destruct (truthy transactionId).
    + match goal with
      | |- context [run env (trxManager.reset_balances ?l) ?w3] =>
          destruct (reset_balances_shape l w3)
            as [r [evs' [j [k [Hr' [Hw [Hle Hc']]]]]]]
      end.
      rewrite Hr'. cbn [tables history].
      exists r,
             (select_event ::
              map (processing_event this)
                  (filter payable (snapshot_of (tables w)))
              ++ evs ++ [Ev (MonitoringLog (SentPayments transactionId))]
              ++ evs'),
             j, k.
      split; [| split; [| split]].
      * unfold paid_addresses. rewrite <- !app_assoc. reflexivity.
      * cbn [app filter is_store_write select_event].
        rewrite !filter_app, processing_writes_nothing, Hsw.
        cbn [app filter is_store_write]. exact Hw.
      * exact Hle.
      * right. cbn [app filter is_create_transactions select_event].
        rewrite !filter_app, processing_creates_nothing, Hc.
        cbn [app filter is_create_transactions]. rewrite Hc'. reflexivity.
    + exists (Returned tt),
             (select_event ::
              map (processing_event this)
                  (filter payable (snapshot_of (tables w)))
              ++ evs ++ [Ev (MonitoringLog (SentPayments transactionId))]),
             O, O.
      cbn [firstn reset_all fold_left]. rewrite tables_eta.
      split; [| split; [| split]].
      * rewrite <- !app_assoc. reflexivity.
      * cbn [app filter is_store_write select_event].
        rewrite !filter_app, processing_writes_nothing, Hsw. reflexivity.
      * lia.
      * right. cbn [app filter is_create_transactions select_event].
        rewrite !filter_app, processing_creates_nothing, Hc. reflexivity.
  - exists (Thrown e),
           (select_event ::
            map (processing_event this)
                (filter payable (snapshot_of (tables w)))
            ++ evs),
           O, O.
    cbn [firstn reset_all fold_left]. rewrite tables_eta.
    split; [| split; [| split]].
    + rewrite <- !app_assoc. reflexivity.
    + cbn [app filter is_store_write select_event].
      rewrite !filter_app, processing_writes_nothing, Hsw. reflexivity.
    + lia.
    + right. cbn [app filter is_create_transactions select_event].
      rewrite !filter_app, processing_creates_nothing, Hc. reflexivity.
Qed.

(** X5.  Whatever the store and the ledger answer, the statements of a
    cycle that write are resets of addresses the snapshot pays, in snapshot
    order and without a gap: a cycle resets no other address, records no
    payment, and leaves the relation [payments] as it is; the relation
    [balances] afterwards is the one before with the accepted resets
    applied. *)
Theorem cycle_writes_only_batch_resets (w : World) :
  exists evs j k,
    history (snd (run env (trxManager.transferBalances this) w))
      = history w ++ evs /\
    filter is_store_write evs =
      firstn j (map reset_event (paid_addresses (tables w))) /\
    payments (tables (snd (run env (trxManager.transferBalances this) w)))
      = payments (tables w) /\
    balances (tables (snd (run env (trxManager.transferBalances this) w)))
      = reset_all (firstn k (paid_addresses (tables w))) (balances (tables w)) /\
    (k <= j)%nat.
Proof.
  destruct (cycle_shape w) as [r [evs [j [k [Hr [Hw [Hle _]]]]]]].
  exists evs, j, k. rewrite Hr. cbn [snd tables history balances payments].
  auto.
Qed.

(** X6.  Whatever the store and the ledger answer, a cycle asks the ledger
    to create transactions at most once, and then for exactly the batch of
    its snapshot, with the pool's address for the change and no priority
    fee; a cycle that has not asked the ledger resets nothing. *)
Theorem cycle_asks_ledger_at_most_once (w : World) :
  exists evs,
    history (snd (run env (trxManager.transferBalances this) w))
      = history w ++ evs /\
    (filter is_create_transactions evs = [] /\
     filter is_store_write evs = [] \/
     filter is_create_transactions evs =
       [Ev (CreateTransactions
              (mkSettings (payable_outputs (snapshot_of (tables w)))
                          (trxManager.address this) 0))]).
Proof.
  destruct (cycle_shape w) as [r [evs [j [k [Hr [Hw [_ Hc]]]]]]].
  exists evs. rewrite Hr. cbn [snd history]. split; [reflexivity |].
  destruct Hc as [[Hc Hj] | Hc]; [left | right; exact Hc].
  subst j. split; [exact Hc | exact Hw].
Qed.

(** After the resets of the addresses a snapshot pays, nothing is left to
    pay. *)
Lemma nothing_payable_after_resets (t : Tables) :
  filter payable
         (snapshot_of (mkTables (reset_all (paid_addresses t) (balances t))
                                (payments t))) = [].
Proof.
  apply nothing_payable. apply Forall_forall. intros x Hx.
  unfold snapshot_of in Hx. cbn [balances] in Hx.
  apply in_map_iff in Hx. destruct Hx as [r' [<- Hr']].
  apply filter_In in Hr'. destruct Hr' as [Hin Hnp].
  rewrite reset_all_rows in Hin.
  apply in_map_iff in Hin. destruct Hin as [r [Hr Hin]].
  destruct (existsb (String.eqb (PoolBalanceRow.address r)) (paid_addresses t))
    eqn:Hex.
  - subst r'. cbn. lia.
  - subst r'. cbn [Database.of_row Balance.balance].
    destruct (0 <? PoolBalanceRow.available_balance r) eqn:Hpos;
      [| apply Z.ltb_ge in Hpos; exact Hpos].
    exfalso.
    assert (Hpaid : In (PoolBalanceRow.address r) (paid_addresses t)).
    { unfold paid_addresses, snapshot_of.
      apply in_map_iff. exists (Database.of_row r). split; [reflexivity |].
      apply filter_In. split; [| exact Hpos].
      apply in_map. apply filter_In. split; assumption. }
    assert (Hex' : existsb (String.eqb (PoolBalanceRow.address r))
                           (paid_addresses t) = true).
    { apply existsb_exists. exists (PoolBalanceRow.address r).
      split; [exact Hpaid | apply String.eqb_refl]. }
    rewrite Hex' in Hex. discriminate.
Qed.

(** A cycle over relations with nothing to pay. *)
Lemma run_transferBalances_idle (w : World) :
  query_rejects env (history w) (SelectBalancesWhereAddressNot "pool") = None ->
  filter payable (snapshot_of (tables w)) = [] ->
  run env (trxManager.transferBalances this) w =
  (Returned tt,
   mkWorld (tables w)
           (history w ++ [select_event; Ev (MonitoringLog NoPaymentsFound)])).
Proof.
  intros Hq Hnone.
  rewrite run_transferBalances, Hq. cbv zeta.
  unfold payable_outputs, world_at_send. rewrite Hnone.
  cbn [map history tables]. rewrite <- app_assoc. reflexivity.
Qed.

(** X7.  When the store accepts every statement and the ledger accepts the
    batch and returns a transaction id that is not empty, the cycle that
    follows, on the relations the first one left, finds nothing to pay: it
    returns after the snapshot statement and one line, without a call to
    the ledger and without a reset. *)
Theorem second_cycle_pays_nothing
        (w : World) (txs : list PendingTransaction.t) (T : string) :
  (forall h q, query_rejects env h q = None) ->
  (forall h, createTransactions env h
               (mkSettings (payable_outputs (snapshot_of (tables w)))
                           (trxManager.address this) 0)
             = Returned (txs, mkSummary (Some T))) ->
  accepted env txs ->
  T <> "" ->
  exists w1,
    run env (trxManager.transferBalances this) w = (Returned tt, w1) /\
    run env (trxManager.transferBalances this) w1 =
      (Returned tt,
       mkWorld (tables w1)
               (history w1 ++
                [select_event; Ev (MonitoringLog NoPaymentsFound)])).
Proof.
  intros Hq Hc Hok HT.
  destruct (payable_outputs (snapshot_of (tables w))) as [| o out] eqn:Hout.
  - assert (Hnone : filter payable (snapshot_of (tables w)) = []).
    { unfold payable_outputs in Hout. apply map_eq_nil in Hout. exact Hout. }
    eexists. split.
    + apply run_transferBalances_idle; [apply Hq | exact Hnone].
    + apply run_transferBalances_idle; [apply Hq | exact Hnone].
  - assert (Hget : run env Database.getAllBalancesExcludingPool w =
                   (Returned (snapshot_of (tables w)),
                    mkWorld (tables w) (history w ++ [select_event]))).
    { rewrite run_getAllBalancesExcludingPool, Hq. reflexivity. }
    assert (Hne : payable_outputs (snapshot_of (tables w)) <> []).
    { rewrite Hout. discriminate. }
    assert (Ht : truthy (Some T) = true).
    { simpl. destruct (String.eqb T "") eqn:E; auto.
      apply String.eqb_eq in E. contradiction. }
    assert (Hres : resets_accepted env (snapshot_of (tables w))).
    { intros h b _ _. apply Hq. }
    rewrite <- Hout in Hc.
    eexists. split.
    + rewrite (run_transferBalances_sent env this _ _ _ _ _ Hget Hne Hc Hok).
      cbv zeta. rewrite Ht.
      rewrite (run_reset_balances_accepted env _ _ Hres). reflexivity.
    + apply run_transferBalances_idle; [apply Hq |].
      cbn [tables]. apply nothing_payable_after_resets.
Qed.

(** X8.  When the store rejects the snapshot statement, the task of the
    scheduler writes the error to the monitor and returns: the cycle has
    sent nothing else to the store, has not called the ledger, and the
    relations are as before. *)
Theorem rejected_snapshot_is_logged (w : World) (e : Error) :
  query_rejects env (history (started w))
                (SelectBalancesWhereAddressNot "pool") = Some e ->
  run env (IndexMinutes.callback true this) w =
  (Returned tt,
   mkWorld (tables w)
           (history w ++
            [Ev (MonitoringLog RunningScheduledTransfer);
             select_event;
             Ev (MonitoringError (TransactionManagerError e))])).
Proof.
  intro Hq.
  rewrite run_callback, run_transferBalances, Hq.
  unfold started. cbn [tables history].
  rewrite <- !app_assoc. reflexivity.
Qed.

(** X9.  Whatever the store and the ledger answer, and whatever the clock
    reads, the task handed to the scheduler returns without an error, in
    the entry point that counts minutes and in the one that counts
    hours. *)
Theorem scheduler_task_never_throws (connected : bool) (w : World) :
  fst (run env (IndexMinutes.callback connected this) w) = Returned tt /\
  forall paymentInterval d,
    fst (run env (IndexHours.callback paymentInterval connected this d) w)
      = Returned tt.
Proof.
  split; [apply callback_returns |].
  intros paymentInterval d.
  destruct (IndexHours.isPaymentTime paymentInterval d) eqn:Hd.
  - rewrite (hours_callback_at_payment_time _ _ _ _ Hd).
    apply callback_returns.
  - unfold IndexHours.callback. rewrite Hd. reflexivity.
Qed.

End AnyCycle.

(** ** The statements of [Database] *)

Section Store.

Variable env : Env.

Lemma set_available_balance_twice (v : Z) (a : string) (r : PoolBalanceRow.t) :
  set_available_balance v a (set_available_balance v a r) =
  set_available_balance v a r.
Proof.
  unfold set_available_balance.
  destruct (String.eqb (PoolBalanceRow.address r) a) eqn:E; cbn; rewrite E;
    reflexivity.
Qed.

Lemma set_available_balance_address (v : Z) (a : string) (r : PoolBalanceRow.t) :
  PoolBalanceRow.address (set_available_balance v a r) = PoolBalanceRow.address r.
Proof.
  unfold set_available_balance.
  destruct (String.eqb (PoolBalanceRow.address r) a); reflexivity.
Qed.

(** X10.  A reset the store accepts touches the rows of its address and
    nothing else: the relation [balances] has as many rows as before;
    every row it has afterwards is a row of the address with balance zero,
    or a row of another address that was there before; every row of
    another address is still there, and for every row of the address
    there is the row with balance zero; the relation [payments] is as it
    was. *)
Theorem reset_touches_only_its_address (wallet : string) (w : World) :
  query_rejects env (history w) (UpdateBalanceWhereAddress 0 wallet) = None ->
  fst (run env (Database.resetBalanceByAddress wallet) w) = Returned tt /\
  List.length
    (balances (tables (snd (run env (Database.resetBalanceByAddress wallet) w))))
    = List.length (balances (tables w)) /\
  (forall r,
      In r (balances (tables (snd (run env (Database.resetBalanceByAddress wallet) w)))) ->
      r = PoolBalanceRow.mk wallet 0 \/
      (PoolBalanceRow.address r <> wallet /\ In r (balances (tables w)))) /\
  (forall r,
      In r (balances (tables w)) ->
      PoolBalanceRow.address r <> wallet ->
      In r (balances (tables (snd (run env (Database.resetBalanceByAddress wallet) w))))) /\
  (forall r,
      In r (balances (tables w)) ->
      PoolBalanceRow.address r = wallet ->
      In (PoolBalanceRow.mk wallet 0)
         (balances (tables (snd (run env (Database.resetBalanceByAddress wallet) w))))) /\
  payments (tables (snd (run env (Database.resetBalanceByAddress wallet) w)))
    = payments (tables w).
Proof.
  intro Hq. rewrite run_resetBalanceByAddress, Hq.
  cbn [fst snd tables balances payments].
  split; [reflexivity |].
  split; [apply length_map |].
  split; [| split; [| split; [| reflexivity]]].
  - intros r Hin. apply in_map_iff in Hin. destruct Hin as [r0 [<- Hin]].
    unfold set_available_balance.
    destruct (String.eqb (PoolBalanceRow.address r0) wallet) eqn:E.
    + left. apply String.eqb_eq in E. now rewrite E.
    + right. apply String.eqb_neq in E. split; assumption.
  - intros r Hin Hne. apply in_map_iff. exists r. split; [| exact Hin].
    unfold set_available_balance.
    apply String.eqb_neq in Hne. rewrite Hne. reflexivity.
  - intros r Hin Ha. apply in_map_iff. exists r. split; [| exact Hin].
    unfold set_available_balance.
    rewrite Ha, String.eqb_refl. reflexivity.
Qed.

(** X11.  A reset repeated gives the relations of a single reset; and a
    reset of an address whose rows, if there are any, have balance zero
    already leaves the relations as they are. *)
Theorem reset_is_idempotent (wallet : string) (w : World) :
  (forall h, query_rejects env h (UpdateBalanceWhereAddress 0 wallet) = None) ->
  tables (snd (run env (Database.resetBalanceByAddress wallet ;;
                        Database.resetBalanceByAddress wallet) w))
    = tables (snd (run env (Database.resetBalanceByAddress wallet) w)) /\
  ((forall r, In r (balances (tables w)) ->
              PoolBalanceRow.address r = wallet ->
              PoolBalanceRow.available_balance r = 0) ->
   tables (snd (run env (Database.resetBalanceByAddress wallet) w)) = tables w).
Proof.
  intro Hq. split.
  - rewrite run_bind, run_resetBalanceByAddress, Hq.
    rewrite run_resetBalanceByAddress, Hq.
    cbn [snd tables balances payments].
    rewrite map_map. f_equal. apply map_ext. intro r.
    apply set_available_balance_twice.
  - intro Hzero. rewrite run_resetBalanceByAddress, Hq.
    cbn [snd tables]. rewrite <- (tables_eta (tables w)) at 3. f_equal.
    rewrite <- (map_id (balances (tables w))) at 2.
    apply map_ext_in. intros r Hin.
    unfold set_available_balance.
    destruct (String.eqb (PoolBalanceRow.address r) wallet) eqn:E;
      [| reflexivity].
    apply String.eqb_eq in E. pose proof (Hzero r Hin E) as Hz.
    destruct r as [a b]. cbn in Hz |- *. rewrite Hz. reflexivity.
Qed.




End Store.

(** ** The payment history *)

Lemma pending_after_mark (id : Z) (a : string) (rows : list PaymentRow.t) :
  map DatabasePayments.of_row
      (filter (fun r => String.eqb (PaymentRow.address r) a &&
                        Bool.eqb (PaymentRow.notified r) false)
              (map (set_notified true id) rows)) =
  filter (fun p => negb (Payment.id p =? id))
         (map DatabasePayments.of_row
              (filter (fun r => String.eqb (PaymentRow.address r) a &&
                                Bool.eqb (PaymentRow.notified r) false)
                      rows)).
Proof.
  induction rows as [| r rest IH]; [reflexivity |].
  destruct r as [i ad am tx ts n].
  cbn [map].
  assert (Hset : set_notified true id (PaymentRow.mk i ad am tx ts n) =
                 if i =? id then PaymentRow.mk i ad am tx ts true
                 else PaymentRow.mk i ad am tx ts n) by reflexivity.
  rewrite Hset. clear Hset.
  destruct (i =? id) eqn:Hid; cbn;
    destruct (String.eqb ad a); destruct n;
    cbn; rewrite ?Hid; cbn; rewrite ?IH; reflexivity.
Qed.

(** X14.  After [markPaymentNotified] for an id, [getPendingPayments]
    returns, for every address, what it returned before without the
    payments of that id: the marked payment is no longer pending, every
    other pending payment still is, in the same order. *)
Theorem marked_payment_is_not_pending (id : Z) (a : string) (t : Tables) :
  exists pending,
    fst (DatabasePayments.getPendingPayments None a t) = Returned pending /\
    fst (DatabasePayments.getPendingPayments None a
           (snd (DatabasePayments.markPaymentNotified None id t)))
      = Returned (filter (fun p => negb (Payment.id p =? id)) pending).
Proof.
  eexists. split; [reflexivity |].
  unfold DatabasePayments.getPendingPayments,
    DatabasePayments.markPaymentNotified, DatabasePayments.query.
  cbn [exec_payments_query fst snd payments].
  now rewrite pending_after_mark.
Qed.

Lemma set_notified_twice (id : Z) (r : PaymentRow.t) :
  set_notified true id (set_notified true id r) = set_notified true id r.
Proof.
  unfold set_notified.
  destruct (PaymentRow.id r =? id) eqn:E; cbn; rewrite E; reflexivity.
Qed.

(** X15.  [markPaymentNotified] changes the flag [notified] and nothing
    else: every row keeps its id, address, amount, transaction id and
    timestamp, a row that was notified stays as it is, the relation
    [balances] is untouched; marking twice is marking once, and marking an
    id no row has leaves the relations as they are. *)
Theorem markPaymentNotified_changes_only_the_flag (id : Z) (t : Tables) :
  map (fun r => (PaymentRow.id r, PaymentRow.address r, PaymentRow.amount r,
                 PaymentRow.tx_id r, PaymentRow.timestamp r))
      (payments (snd (DatabasePayments.markPaymentNotified None id t)))
    = map (fun r => (PaymentRow.id r, PaymentRow.address r, PaymentRow.amount r,
                     PaymentRow.tx_id r, PaymentRow.timestamp r))
          (payments t) /\
  (forall r, In r (payments t) -> PaymentRow.notified r = true ->
             In r (payments (snd (DatabasePayments.markPaymentNotified None id t)))) /\
  balances (snd (DatabasePayments.markPaymentNotified None id t)) = balances t /\
  snd (DatabasePayments.markPaymentNotified None id
         (snd (DatabasePayments.markPaymentNotified None id t)))
    = snd (DatabasePayments.markPaymentNotified None id t) /\
  (~ In id (map PaymentRow.id (payments t)) ->
   snd (DatabasePayments.markPaymentNotified None id t) = t).
Proof.
  unfold DatabasePayments.markPaymentNotified, DatabasePayments.query.
  cbn [exec_payments_query snd payments balances].
  split; [| split; [| split; [reflexivity | split]]].
  - rewrite map_map. apply map_ext. intro r. unfold set_notified.
    destruct (PaymentRow.id r =? id); reflexivity.
  - intros r Hin Hn. apply in_map_iff. exists r. split; [| exact Hin].
    unfold set_notified. destruct (PaymentRow.id r =? id); [| reflexivity].
    destruct r as [i a m x s n]. cbn in Hn |- *. now rewrite Hn.
  - rewrite map_map. f_equal. apply map_ext. intro r.
    apply set_notified_twice.
  - intro Hnot. destruct t as [bs ps]. cbn [balances payments] in *.
    f_equal. rewrite <- (map_id ps) at 2. apply map_ext_in.
    intros r Hin. unfold set_notified.
    destruct (PaymentRow.id r =? id) eqn:E; [| reflexivity].
    exfalso. apply Hnot. apply Z.eqb_eq in E. rewrite <- E.
    apply in_map, Hin.
Qed.

(** X16.  [getPendingPayments] only reads: the relations are as they were
    whether the store answers or rejects; a rejection is thrown; an answer
    is the rows of [payments] with the address asked for that are not
    notified, and only those. *)
Theorem getPendingPayments_reads_unnotified
        (rejects : option Error) (a : string) (t : Tables) :
  snd (DatabasePayments.getPendingPayments rejects a t) = t /\
  (forall e, rejects = Some e ->
             fst (DatabasePayments.getPendingPayments rejects a t) = Thrown e) /\
  (rejects = None ->
   exists pending,
     fst (DatabasePayments.getPendingPayments rejects a t) = Returned pending /\
     forall p,
       In p pending <->
       exists row, In row (payments t) /\
                   DatabasePayments.of_row row = p /\
                   PaymentRow.address row = a /\
                   PaymentRow.notified row = false).
Proof.
  unfold DatabasePayments.getPendingPayments, DatabasePayments.query.
  destruct rejects as [e |]; cbn [exec_payments_query fst snd].
  - split; [reflexivity |]. split; [| discriminate].
    intros e' He. now inversion He.
  - split; [reflexivity |]. split; [discriminate |].
    intros _. eexists. split; [reflexivity |].
    intro p. rewrite in_map_iff. split.
    + intros [row [Hp Hin]]. apply filter_In in Hin.
      destruct Hin as [Hin Hc]. apply andb_true_iff in Hc.
      destruct Hc as [Ha Hn].
      exists row. repeat split; auto.
      * now apply String.eqb_eq.
      * destruct (PaymentRow.notified row); [discriminate | reflexivity].
    + intros [row [Hin [Hp [Ha Hn]]]].
      exists row. split; [exact Hp |]. apply filter_In. split; [exact Hin |].
      rewrite Ha, Hn, String.eqb_refl. reflexivity.
Qed.

(** ** More on the cadence *)

Lemma minutes_fires_unfolded (p h m s : Z) :
  0 < p -> 0 <= m ->
  IndexMinutes.fires p true (mkDate h m s) = true <-> s = 0 /\ m mod p = 0.
Proof.
  intros Hp Hm. unfold IndexMinutes.fires, cron_matches, IndexMinutes.schedule.
  cbn [second minute hour getSeconds getMinutes getHours field_matches].
  unfold rem_is_zero.
  destruct (p =? 0) eqn:E; [apply Z.eqb_eq in E; lia |].
  rewrite Z.rem_mod_nonneg by lia.
  rewrite !andb_true_r, andb_true_iff, !Z.eqb_eq. reflexivity.
Qed.

(** X17.  For a cadence that divides the hour (5, 6, 10, 12, 15, 20, 30 or
    60 minutes) the scheduler starts a cycle exactly at the readings of
    the clock at which the time of day is a multiple of the cadence. *)
Theorem cadence_dividing_the_hour_is_regular (p h m s : Z) :
  0 < p -> (p | 60) ->
  0 <= h < 24 -> 0 <= m < 60 -> 0 <= s < 60 ->
  IndexMinutes.fires p true (mkDate h m s) = true <->
  (h * 3600 + m * 60 + s) mod (p * 60) = 0.
Proof.
  intros Hp Hdiv Hh Hm Hs.
  rewrite minutes_fires_unfolded by lia.
  assert (H3600 : (p * 60 | h * 3600)).
  { replace (h * 3600) with (h * (60 * 60)) by lia.
    apply Z.divide_mul_r, Z.mul_divide_mono_r, Hdiv. }
  rewrite !Z.mod_divide by lia.
  split.
  - intros [-> Hpm]. rewrite Z.add_0_r.
    apply Z.divide_add_r; [exact H3600 |].
    apply Z.mul_divide_mono_r, Hpm.
  - intro HT.
    assert (H60 : (60 | s)).
    { assert (H60T : (60 | h * 3600 + m * 60 + s)).
      { apply Z.divide_trans with (p * 60); [| exact HT].
        exists p. reflexivity. }
      destruct H60T as [q Hq]. exists (q - h * 60 - m). lia. }
    assert (Hs0 : s = 0).
    { destruct H60 as [k Hk]. lia. }
    subst s. split; [reflexivity |].
    rewrite Z.add_0_r in HT.
    apply (Z.divide_add_cancel_r _ _ _ H3600) in HT.
    apply Z.mul_divide_cancel_r in HT; [exact HT | lia].
Qed.

(** X18.  For a cadence of sixty minutes or more the scheduler starts a
    cycle at second 0 of minute 0 of every hour and at no other reading of
    the clock: the minutes field holds no other multiple of the cadence. *)
Theorem cadence_of_an_hour_or_more_fires_hourly (p h m s : Z) :
  60 <= p -> 0 <= m < 60 ->
  IndexMinutes.fires p true (mkDate h m s) = true <-> s = 0 /\ m = 0.
Proof.
  intros Hp Hm. rewrite minutes_fires_unfolded by lia.
  destruct (Z.eq_dec p 60) as [-> | Hne].
  - split; intros [Hs H0]; (split; [exact Hs |]).
    + apply Z.mod_divide in H0; [| lia]. destruct H0 as [k Hk]. lia.
    + subst m. reflexivity.
  - rewrite Z.mod_small by lia. reflexivity.
Qed.

(** X19.  In the entry point that counts hours, for a cadence that passed
    the startup check, a cycle starts exactly at second 0 of minute 0 of
    the hours of the day the cadence divides; so one starts at midnight
    whatever the cadence. *)
Theorem hours_cadence_fires_on_divisible_hours (p h m s : Z) :
  1 <= p <= 24 -> 0 <= h < 24 -> 0 <= m < 60 ->
  (IndexHours.fires p true (mkDate h m s) = true <->
   s = 0 /\ m = 0 /\ h mod p = 0) /\
  IndexHours.fires p true (mkDate 0 0 0) = true.
Proof.
  intros Hp Hh Hm.
  unfold IndexHours.fires, cron_matches, IndexHours.schedule,
    IndexHours.isPaymentTime.
  cbn [second minute hour getSeconds getMinutes getHours field_matches].
  unfold rem_is_zero.
  destruct (p =? 0) eqn:E; [apply Z.eqb_eq in E; lia |].
  cbn [Z.eqb]. split.
  - rewrite !Z.rem_mod_nonneg by lia.
    rewrite !andb_true_r, !andb_true_iff, !Z.eqb_eq.
    split.
    + intros [[Hs _] [Hm0 Hh0]]. auto.
    + intros [Hs [Hm0 Hh0]]. subst m. auto.
  - rewrite Z.rem_0_l by lia. reflexivity.
Qed.

(** X20.  In the entry point that counts minutes the progress line counts
    between 1 and the cadence, never 0, and what it counts leads from the
    minute of the day to a multiple of the cadence. *)
Theorem nextTransferMinutes_in_range (p h m s : Z) :
  0 < p -> 0 <= h -> 0 <= m ->
  1 <= IndexMinutes.nextTransferMinutes p (mkDate h m s) <= p /\
  (h * 60 + m + IndexMinutes.nextTransferMinutes p (mkDate h m s)) mod p = 0.
Proof.
  intros Hp Hh Hm. unfold IndexMinutes.nextTransferMinutes.
  cbn [getHours getMinutes].
  rewrite Z.rem_mod_nonneg by lia.
  pose proof (Z.mod_pos_bound (h * 60 + m) p Hp) as Hb.
  split; [lia |].
  pose proof (Z.div_mod (h * 60 + m) p ltac:(lia)) as Hd.
  replace (h * 60 + m + (p - (h * 60 + m) mod p))
    with (((h * 60 + m) / p + 1) * p) by lia.
  apply Z.mod_mul. lia.
Qed.

(** X21.  In the entry point that counts hours the progress line shows 0
    exactly at minute 0 of an hour, whether or not a transfer is due then;
    at every other minute it shows the minutes up to the next hour the
    cadence divides, between 1 and the minutes of the cadence. *)
Theorem remainingTime_is_zero_on_the_hour (p h m s : Z) :
  1 <= p -> 0 <= h -> 0 <= m < 60 ->
  (ProgressHours.remainingTime p (mkDate h m s) = 0 <-> m = 0) /\
  (m <> 0 ->
   ProgressHours.remainingTime p (mkDate h m s) =
     (p - h mod p) * 60 - m /\
   1 <= ProgressHours.remainingTime p (mkDate h m s) < p * 60).
Proof.
  intros Hp Hh Hm.
  unfold ProgressHours.remainingTime, ProgressHours.remainingMinutes,
    ProgressHours.nextTransferHours.
  cbn [getHours getMinutes].
  rewrite Z.rem_mod_nonneg by lia.
  pose proof (Z.mod_pos_bound h p ltac:(lia)) as Hb.
  destruct ((p - h mod p) * 60 - m =? (p - h mod p) * 60) eqn:E.
  - apply Z.eqb_eq in E. split; [split; intro; lia | intro; lia].
  - apply Z.eqb_neq in E. split; [split; intro; lia |].
    intros _. split; [reflexivity | lia].
Qed.

(** ** Startup *)

Lemma present_truthy (s : option string) (v : string) :
  present s = Some v -> s = Some v /\ v <> "".
Proof.
  destruct s as [x |]; cbn; [| discriminate].
  destruct (String.eqb x "") eqn:E; [discriminate |].
  intro H. inversion H. subst. split; [reflexivity |].
  now apply String.eqb_neq.
Qed.

Lemma startRpcConnection_returned (o : Outside) (flag : bool) (u : unit) :
  Startup.startRpcConnection o = (Returned u, flag) ->
  flag = true /\
  raced o = Returned tt /\
  exists info, getServerInfo o = Returned info /\
               isSynced info = true /\ hasUtxoIndex info = true.
Proof.
  unfold Startup.startRpcConnection.
  destruct (raced o) as [[] | e]; [| discriminate].
  destruct (getServerInfo o) as [info | e]; [| discriminate].
  destruct (isSynced info) eqn:Hs; destruct (hasUtxoIndex info) eqn:Hu;
    cbn; try discriminate.
  intro H. inversion H. split; [reflexivity |]. split; [reflexivity |].
  exists info. auto.
Qed.

(** X22.  Whenever the entry point reaches [cron.schedule], the flag
    [rpcConnected] is true and the transaction manager is there, made from
    the network and the private key of the configuration; the private key,
    the network and the store's URL are set and not empty, the cadence has
    passed its check, the connection was made within the time allowed, and
    the node is synchronized and has the UTXO index. *)
Theorem scheduled_only_when_connected
        (check : option Z -> Outcome Z) (env : ProcessEnv.t)
        (config : Config.t) (o : Outside) (sch : Scheduled) :
  Startup.main check env config o = Returned sch ->
  rpcConnected sch = true /\
  (exists key network,
      ProcessEnv.TREASURY_PRIVATE_KEY env = Some key /\ key <> "" /\
      Config.network config = Some network /\ network <> "" /\
      transactionManager sch =
        Some (trxManager.new (toAddress o) network key)) /\
  (exists url, ProcessEnv.DATABASE_URL env = Some url /\ url <> "") /\
  check (Config.paymentInterval config) = Returned (interval sch) /\
  raced o = Returned tt /\
  exists info, getServerInfo o = Returned info /\
               isSynced info = true /\ hasUtxoIndex info = true.
Proof.
  unfold Startup.main.
  destruct (present (ProcessEnv.TREASURY_PRIVATE_KEY env)) as [key |] eqn:Hk;
    [| discriminate].
  destruct (present (Config.network config)) as [network |] eqn:Hn;
    [| discriminate].
  destruct (present (ProcessEnv.DATABASE_URL env)) as [url |] eqn:Hu;
    [| discriminate].
  destruct (check (Config.paymentInterval config)) as [p | e]; [| discriminate].
  destruct (Startup.startRpcConnection o) as [[u | e] flag] eqn:Hrpc;
    [| discriminate].
  unfold Startup.setupTransactionManager.
  destruct (newPrivateKey o key); [discriminate |].
  intro H. inversion H. subst sch. cbn [rpcConnected transactionManager interval].
  apply startRpcConnection_returned in Hrpc.
  destruct Hrpc as [Hflag [Hraced Hinfo]].
  apply present_truthy in Hk. apply present_truthy in Hn.
  apply present_truthy in Hu.
  split; [exact Hflag |].
  split; [exists key, network; tauto |].
  split; [exists url; exact Hu |].
  split; [reflexivity |].
  split; assumption.
Qed.

(** X23.  A cadence the entry point schedules with lies within the bounds
    of its variant, 5 to 1440 minutes or 1 to 24 hours, and is the
    configured value, or the default when none or zero is configured: the
    scheduler never divides by zero. *)
Theorem scheduled_cadence_is_in_range
        (env : ProcessEnv.t) (config : Config.t) (o : Outside)
        (sch : Scheduled) :
  (Startup.main IndexMinutes.paymentInterval env config o = Returned sch ->
   5 <= interval sch <= 1440 /\
   interval sch = or_default (Config.paymentInterval config) 30) /\
  (Startup.main IndexHours.paymentInterval env config o = Returned sch ->
   1 <= interval sch <= 24 /\
   interval sch = or_default (Config.paymentInterval config) 2).
Proof.
  split; unfold Startup.main;
    destruct (present (ProcessEnv.TREASURY_PRIVATE_KEY env)); try discriminate;
    destruct (present (Config.network config)); try discriminate;
    destruct (present (ProcessEnv.DATABASE_URL env)); try discriminate.
  - destruct (IndexMinutes.paymentInterval (Config.paymentInterval config))
      as [p | e] eqn:Hp; [| discriminate].
    destruct (Startup.startRpcConnection o) as [[u | e] flag]; [| discriminate].
    destruct (Startup.setupTransactionManager o _ _); [| discriminate].
    intro H. inversion H. cbn [interval].
    unfold IndexMinutes.paymentInterval in Hp.
    destruct ((or_default (Config.paymentInterval config) 30 <? 5) ||
              (or_default (Config.paymentInterval config) 30 >? 1440)) eqn:E;
      [discriminate |].
    inversion Hp. apply orb_false_iff in E.
    rewrite Z.ltb_ge, Z.gtb_ltb, Z.ltb_ge in E. lia.
  - destruct (IndexHours.paymentInterval (Config.paymentInterval config))
      as [p | e] eqn:Hp; [| discriminate].
    destruct (Startup.startRpcConnection o) as [[u | e] flag]; [| discriminate].
    destruct (Startup.setupTransactionManager o _ _); [| discriminate].
    intro H. inversion H. cbn [interval].
    unfold IndexHours.paymentInterval in Hp.
    destruct ((or_default (Config.paymentInterval config) 2 <? 1) ||
              (or_default (Config.paymentInterval config) 2 >? 24)) eqn:E;
      [discriminate |].
    inversion Hp. apply orb_false_iff in E.
    rewrite Z.ltb_ge, Z.gtb_ltb, Z.ltb_ge in E. lia.
Qed.

(** ** The further theorems at the worlds of [Scenario] and [Worlds] *)

(** The broadcast of the second of two transactions is rejected. *)
Lemma send_stops_at_rejected_broadcast_witness :
  run Scenario.second_broadcast_rejected
      (trxManager.send Scenario.manager Scenario.batch) Scenario.start =
  (Thrown "broadcast failed",
   mkWorld (tables Scenario.start)
           (history Scenario.start ++
            send_events Scenario.manager Scenario.batch [Scenario.T1] ++
            [Ev (Sign Scenario.T2); Ev (Submit Scenario.T2)])).
Proof.
  apply (send_stops_at_rejected_broadcast
           Scenario.second_broadcast_rejected Scenario.manager
           Scenario.batch [Scenario.T1] [] Scenario.T2
           (mkSummary (Some "T2")) "broadcast failed" Scenario.start).
  - intro h. reflexivity.
  - intros h tx [<- | []]. split; reflexivity.
  - intro h. reflexivity.
  - intro h. reflexivity.
Defined.

(** The second of two transactions is not signed. *)
Lemma send_stops_at_rejected_signature_witness :
  run Worlds.second_signature_rejected
      (trxManager.send Scenario.manager Scenario.batch) Scenario.start =
  (Thrown "signature failed",
   mkWorld (tables Scenario.start)
           (history Scenario.start ++
            send_events Scenario.manager Scenario.batch [Scenario.T1] ++
            [Ev (Sign Scenario.T2)])).
Proof.
  apply (send_stops_at_rejected_signature
           Worlds.second_signature_rejected Scenario.manager
           Scenario.batch [Scenario.T1] [] Scenario.T2
           (mkSummary (Some "T2")) "signature failed" Scenario.start).
  - intro h. reflexivity.
  - intros h tx [<- | []]. split; reflexivity.
  - intro h. reflexivity.
Defined.

(** Two transactions, accepted. *)
Lemma send_broadcasts_in_order_witness :
  run Worlds.two_transactions
      (trxManager.send Scenario.manager Scenario.batch) Scenario.start =
  (Returned (Some "T2"),
   mkWorld (tables Scenario.start)
           [Ev (ConsoleLog Scenario.batch);
            Ev (CreateTransactions
                  (mkSettings Scenario.batch "vecno:qtreasury" 0));
            Ev (Sign Scenario.T1); Ev (Submit Scenario.T1);
            Ev (SetTimeout 5000);
            Ev (Sign Scenario.T2); Ev (Submit Scenario.T2);
            Ev (SetTimeout 5000)]).
Proof.
  apply (send_broadcasts_in_order
           Worlds.two_transactions Scenario.manager Scenario.batch
           [Scenario.T1; Scenario.T2] (mkSummary (Some "T2")) Scenario.start).
  - intro h. reflexivity.
  - intros h tx _. split; reflexivity.
Defined.

(** Two cycles in a row over [A 500, B 0, C 1200]. *)
Lemma second_cycle_pays_nothing_witness :
  exists w1,
    run Scenario.accepting (trxManager.transferBalances Scenario.manager)
        Scenario.start = (Returned tt, w1) /\
    run Scenario.accepting (trxManager.transferBalances Scenario.manager) w1 =
      (Returned tt,
       mkWorld (tables w1)
               (history w1 ++
                [select_event; Ev (MonitoringLog NoPaymentsFound)])).
Proof.
  apply (second_cycle_pays_nothing
           Scenario.accepting Scenario.manager Scenario.start
           [Scenario.T1] "T1").
  - intros h q. reflexivity.
  - intro h. reflexivity.
  - intros h tx _. split; reflexivity.
  - discriminate.
Defined.

(** The store rejects the snapshot statement. *)
Lemma rejected_snapshot_is_logged_witness :
  run Worlds.snapshot_rejected (IndexMinutes.callback true Scenario.manager)
      Scenario.start =
  (Returned tt,
   mkWorld (tables Scenario.start)
           (history Scenario.start ++
            [Ev (MonitoringLog RunningScheduledTransfer);
             select_event;
             Ev (MonitoringError (TransactionManagerError "store unavailable"))])).
Proof.
  apply (rejected_snapshot_is_logged
           Worlds.snapshot_rejected Scenario.manager Scenario.start
           "store unavailable").
  reflexivity.
Defined.

(** The reset of [A] in the relation [A 500, B 0, pool 7, C 1200]. *)
Lemma reset_touches_only_its_address_witness :
  In (PoolBalanceRow.mk "A" 0)
     (balances (tables (snd (run Scenario.accepting
                                 (Database.resetBalanceByAddress "A")
                                 Scenario.start)))) /\
  In (PoolBalanceRow.mk "C" 1200)
     (balances (tables (snd (run Scenario.accepting
                                 (Database.resetBalanceByAddress "A")
                                 Scenario.start)))).
Proof.
  destruct (reset_touches_only_its_address
              Scenario.accepting "A" Scenario.start eq_refl)
    as [_ [_ [_ [Hother [Hzero _]]]]].
  split.
  - apply (Hzero (PoolBalanceRow.mk "A" 500)); [cbn; tauto | reflexivity].
  - apply (Hother (PoolBalanceRow.mk "C" 1200)); [cbn; tauto | discriminate].
Defined.

(** The reset of [B], whose balance is zero, and the reset of [A] twice. *)
Lemma reset_is_idempotent_witness :
  tables (snd (run Scenario.accepting
                   (Database.resetBalanceByAddress "A" ;;
                    Database.resetBalanceByAddress "A") Scenario.start))
    = tables (snd (run Scenario.accepting
                       (Database.resetBalanceByAddress "A") Scenario.start)) /\
  tables (snd (run Scenario.accepting
                   (Database.resetBalanceByAddress "B") Scenario.start))
    = tables Scenario.start.
Proof.
  split.
  - apply (reset_is_idempotent Scenario.accepting "A" Scenario.start).
    intro h. reflexivity.
  - apply (reset_is_idempotent Scenario.accepting "B" Scenario.start).
    + intro h. reflexivity.
    + intros r Hin Ha. cbn in Hin.
      destruct Hin as [<- | [<- | [<- | [<- | []]]]];
        try discriminate; reflexivity.
Defined.



(** An id no row has. *)
Lemma markPaymentNotified_changes_only_the_flag_witness :
  snd (DatabasePayments.markPaymentNotified None 7 Worlds.with_payments)
  = Worlds.with_payments.
Proof.
  apply (markPaymentNotified_changes_only_the_flag 7 Worlds.with_payments).
  cbn. intros [H | [H | []]]; discriminate.
Defined.

(** The pending payments of [A]. *)
Lemma getPendingPayments_reads_unnotified_witness :
  exists pending,
    fst (DatabasePayments.getPendingPayments None "A" Worlds.with_payments)
      = Returned pending /\
    forall p,
      In p pending <->
      exists row, In row (payments Worlds.with_payments) /\
                  DatabasePayments.of_row row = p /\
                  PaymentRow.address row = "A" /\
                  PaymentRow.notified row = false.
Proof.
  apply (getPendingPayments_reads_unnotified None "A" Worlds.with_payments).
  reflexivity.
Defined.

(** A cadence of 15 minutes at 10:45:00. *)
Lemma cadence_dividing_the_hour_is_regular_witness :
  IndexMinutes.fires 15 true (mkDate 10 45 0) = true <->
  (10 * 3600 + 45 * 60 + 0) mod (15 * 60) = 0.
Proof.
  apply (cadence_dividing_the_hour_is_regular 15 10 45 0); try lia.
  exists 4. reflexivity.
Defined.

(** A cadence of 1440 minutes at 03:00:00. *)
Lemma cadence_of_an_hour_or_more_fires_hourly_witness :
  IndexMinutes.fires 1440 true (mkDate 3 0 0) = true <-> 0 = 0 /\ 0 = 0.
Proof.
  apply (cadence_of_an_hour_or_more_fires_hourly 1440 3 0 0); lia.
Defined.

(** A cadence of 5 hours at 20:00:00. *)
Lemma hours_cadence_fires_on_divisible_hours_witness :
  (IndexHours.fires 5 true (mkDate 20 0 0) = true <->
   0 = 0 /\ 0 = 0 /\ 20 mod 5 = 0) /\
  IndexHours.fires 5 true (mkDate 0 0 0) = true.
Proof.
  apply (hours_cadence_fires_on_divisible_hours 5 20 0 0); lia.
Defined.

(** A cadence of 30 minutes at 10:12. *)
Lemma nextTransferMinutes_in_range_witness :
  1 <= IndexMinutes.nextTransferMinutes 30 (mkDate 10 12 0) <= 30 /\
  (10 * 60 + 12 + IndexMinutes.nextTransferMinutes 30 (mkDate 10 12 0)) mod 30 = 0.
Proof.
  apply (nextTransferMinutes_in_range 30 10 12 0); lia.
Defined.

(** A cadence of 2 hours at 01:00:00, an hour before the transfer. *)
Lemma remainingTime_is_zero_on_the_hour_witness :
  ProgressHours.remainingTime 2 (mkDate 1 0 0) = 0 <-> 0 = 0.
Proof.
  apply (remainingTime_is_zero_on_the_hour 2 1 0 0); lia.
Defined.

(** A startup in which everything is in place. *)
Lemma scheduled_only_when_connected_witness :
  Startup.main IndexMinutes.paymentInterval
               Worlds.environment Worlds.config Worlds.outside
    = Returned (mkScheduled 30 true (Some Scenario.manager)) /\
  rpcConnected (mkScheduled 30 true (Some Scenario.manager)) = true.
Proof.
  split; [reflexivity |].
  apply (scheduled_only_when_connected
           IndexMinutes.paymentInterval
           Worlds.environment Worlds.config Worlds.outside
           (mkScheduled 30 true (Some Scenario.manager))).
  reflexivity.
Defined.

Lemma scheduled_cadence_is_in_range_witness :
  5 <= interval (mkScheduled 30 true (Some Scenario.manager)) <= 1440 /\
  interval (mkScheduled 30 true (Some Scenario.manager)) =
    or_default (Config.paymentInterval Worlds.config) 30.
Proof.
  apply (proj1 (scheduled_cadence_is_in_range
                  Worlds.environment Worlds.config Worlds.outside
                  (mkScheduled 30 true (Some Scenario.manager)))).
  reflexivity.
Defined.

(** ** What the task of the scheduler does when it is called *)

Section Called.

Variable env : Env.
Variable this : trxManager.t.

(** A cycle begins with the snapshot statement, and when the store answers
    it with a balance above zero the cycle asks the ledger for transactions
    that pay the balances above zero. *)
Lemma transferBalances_reads_then_asks (w : World) :
  exists r t' evs,
    run env (trxManager.transferBalances this) w =
      (r, mkWorld t' (history w ++ select_event :: evs)) /\
    (query_rejects env (history w) (SelectBalancesWhereAddressNot "pool") = None ->
     payable_outputs (snapshot_of (tables w)) <> [] ->
     In (Ev (CreateTransactions
               (mkSettings (payable_outputs (snapshot_of (tables w)))
                           (trxManager.address this) 0)))
        evs).
Proof.
  rewrite run_transferBalances.
  destruct (query_rejects env (history w) _) as [e |].
  { exists (Thrown e), (tables w), []. split; [reflexivity | discriminate]. }
  cbv zeta.
  destruct (payable_outputs (snapshot_of (tables w))) as [| o out] eqn:Hout.
  { eexists _, _, _. unfold world_at_send. cbn [history].
    rewrite <- app_assoc. cbn [app]. split; [reflexivity |].
    intros _ H. contradiction. }
  destruct (send_shape env this (o :: out) (world_at_send this w))
    as [r [evs [Hr [_ Hc]]]].
  assert (Hin : In (Ev (CreateTransactions
                          (mkSettings (o :: out) (trxManager.address this) 0)))
                   evs).
  { assert (H : In (Ev (CreateTransactions
                          (mkSettings (o :: out) (trxManager.address this) 0)))
                   (filter is_create_transactions evs)).
    { rewrite Hc. now left. }
    apply filter_In in H. apply H. }
  rewrite Hr. unfold world_at_send. cbn [tables history].
  destruct r as [transactionId | e].
  - destruct (truthy transactionId).
    + match goal with
      | |- context [run env (trxManager.reset_balances ?l) ?w3] =>
          destruct (reset_balances_shape env l w3)
            as [r [evs' [j [k [Hr' _]]]]]
      end.
      rewrite Hr'. cbn [tables history].
      eexists _, _, _. rewrite <- !app_assoc. cbn [app].
      split; [reflexivity |].
      intros _ _. apply in_or_app. right. apply in_or_app. now left.
    + eexists _, _, _. rewrite <- !app_assoc. cbn [app].
      split; [reflexivity |].
      intros _ _. apply in_or_app. right. apply in_or_app. now left.
  - eexists _, _, _. rewrite <- !app_assoc. cbn [app].
    split; [reflexivity |].
    intros _ _. apply in_or_app. now right.
Qed.

(** The task with the connection up: one line to the monitor, then the
    cycle. *)
Lemma callback_reads_then_asks (w : World) :
  exists t' evs,
    run env (IndexMinutes.callback true this) w =
      (Returned tt,
       mkWorld t'
               (history w ++
                Ev (MonitoringLog RunningScheduledTransfer) ::
                select_event :: evs)) /\
    (query_rejects env (history (started w))
                   (SelectBalancesWhereAddressNot "pool") = None ->
     payable_outputs (snapshot_of (tables w)) <> [] ->
     In (Ev (CreateTransactions
               (mkSettings (payable_outputs (snapshot_of (tables w)))
                           (trxManager.address this) 0)))
        evs).
Proof.
  rewrite run_callback.
  destruct (transferBalances_reads_then_asks (started w))
    as [r [t' [evs [Hr Hask]]]].
  rewrite Hr. unfold started in *. cbn [tables history] in *.
  destruct r as [[] | e].
  - exists t', evs. rewrite <- app_assoc. cbn [app].
    split; [reflexivity | exact Hask].
  - exists t', (evs ++ [Ev (MonitoringError (TransactionManagerError e))]).
    rewrite <- !app_assoc. cbn [app].
    split; [reflexivity |].
    intros Hq Hne. apply in_or_app. left. exact (Hask Hq Hne).
Qed.


(** When the clock does not read a payment time, the task of the entry
    point that counts hours does nothing. *)
Lemma hours_callback_off_payment_time
      (p : Z) (connected : bool) (d : Date) (w : World) :
  IndexHours.isPaymentTime p d = false ->
  run env (IndexHours.callback p connected this d) w = (Returned tt, w).
Proof.
  intro Hd. unfold IndexHours.callback. rewrite Hd. reflexivity.
Qed.

Lemma isPaymentTime_iff (p h m s : Z) :
  1 <= p -> 0 <= h ->
  IndexHours.isPaymentTime p (mkDate h m s) = true <-> m = 0 /\ h mod p = 0.
Proof.
  intros Hp Hh. unfold IndexHours.isPaymentTime, rem_is_zero.
  cbn [getMinutes getHours].
  destruct (p =? 0) eqn:E; [apply Z.eqb_eq in E; lia |].
  rewrite Z.rem_mod_nonneg by lia.
  rewrite andb_true_iff, !Z.eqb_eq. reflexivity.
Qed.

(** C8, as the code has it.  In the entry point that counts minutes a
    cadence of 30 passes the startup check; its schedule matches second 0
    of minute 0 and of minute 30 of every hour and no second of minute 15,
    that is exactly the readings of the clock at which the time of day is
    a multiple of 30 minutes; and the task the scheduler then calls, with
    the connection up, writes its first line and sends the snapshot
    statement of a cycle.  In the entry point that counts hours a cadence
    of 30 is thrown out at startup; for a cadence it takes, the
    payment-time test holds exactly at minute 0 of the hours the cadence
    divides, the task does nothing at every other minute, minute 30 and
    minute 15 among them, and at a payment time it is the task of the
    other entry point. *)
Theorem cadence_30_fires_on_the_half_hour (w : World) (h m s : Z) :
  0 <= h < 24 -> 0 <= m < 60 -> 0 <= s < 60 ->
  (IndexMinutes.paymentInterval (Some 30) = Returned 30 /\
   IndexMinutes.fires 30 true (mkDate h 0 0) = true /\
   IndexMinutes.fires 30 true (mkDate h 30 0) = true /\
   IndexMinutes.fires 30 true (mkDate h 15 s) = false /\
   (IndexMinutes.fires 30 true (mkDate h m s) = true <->
    (h * 3600 + m * 60 + s) mod (30 * 60) = 0) /\
   exists t' evs,
     run env (IndexMinutes.callback true this) w =
       (Returned tt,
        mkWorld t'
                (history w ++
                 Ev (MonitoringLog RunningScheduledTransfer) ::
                 select_event :: evs))) /\
  (IndexHours.paymentInterval (Some 30) =
     Thrown "paymentInterval must be between 1 and 24 hours." /\
   forall p,
     1 <= p <= 24 ->
     (IndexHours.isPaymentTime p (mkDate h m s) = true <->
      m = 0 /\ h mod p = 0) /\
     (m <> 0 ->
      run env (IndexHours.callback p true this (mkDate h m s)) w
        = (Returned tt, w)) /\
     (m = 0 -> h mod p = 0 ->
      run env (IndexHours.callback p true this (mkDate h m s)) w
        = run env (IndexMinutes.callback true this) w)).
Proof.
  intros Hh Hm Hs. split.
  - destruct (half_hour_schedule h m s Hh Hm Hs) as [H1 [H2 [H3 [H4 H5]]]].
    repeat (split; [assumption |]).
    destruct (callback_reads_then_asks w) as [t' [evs [Hr _]]].
    exists t', evs. exact Hr.
  - split; [reflexivity |].
    intros p Hp.
    pose proof (isPaymentTime_iff p h m s ltac:(lia) ltac:(lia)) as Hiff.
    split; [exact Hiff |]. split.
    + intro Hne. apply hours_callback_off_payment_time.
      apply not_true_is_false. intro E.
      apply Hiff in E. destruct E as [E _]. contradiction.
    + intros Hm0 Hdiv.
      rewrite (hours_callback_at_payment_time p true this (mkDate h m s)).
      * reflexivity.
      * apply Hiff. split; assumption.
Qed.

End Called.

(** ** More of the cycle on the worlds of [Scenario] *)

(** C3 fails on the code.  A snapshot with two records of the address [A]
    gives a batch with two outputs for [A]. *)
Lemma address_with_two_records_is_paid_twice :
  snapshot_of (mkTables [PoolBalanceRow.mk "A" 500; PoolBalanceRow.mk "A" 300] [])
    = [Balance.mk "A" "A" 500; Balance.mk "A" "A" 300] /\
  fst (run Scenario.accepting
           (trxManager.collect_payments
              Scenario.manager
              [Balance.mk "A" "A" 500; Balance.mk "A" "A" 300] [])
           Scenario.start)
    = Returned [IPaymentOutput.mk "A" 500; IPaymentOutput.mk "A" 300] /\
  ~ (forall out,
       fst (run Scenario.accepting
                (trxManager.collect_payments
                   Scenario.manager
                   [Balance.mk "A" "A" 500; Balance.mk "A" "A" 300] [])
                Scenario.start) = Returned out ->
       NoDup (map IPaymentOutput.address out)).
Proof.
  split; [reflexivity |]. split; [reflexivity |].
  intro H. specialize (H _ eq_refl). cbn in H.
  inversion H as [| x l Hnotin _]. apply Hnotin. now left.
Qed.

(** C8 fails on the code.  With a cadence of 30 the entry point that counts
    hours throws at startup and schedules nothing; and with a cadence it
    takes, its task does nothing at minute 30. *)
Lemma hours_entry_point_starts_nothing_at_minute_30 :
  Startup.main IndexHours.paymentInterval Worlds.environment
               (Config.mk (Some "mainnet") ["wss://node"] (Some 30))
               Worlds.outside
    = Thrown "paymentInterval must be between 1 and 24 hours." /\
  IndexHours.isPaymentTime 30 (mkDate 10 30 0) = false /\
  run Scenario.accepting
      (IndexHours.callback 2 true Scenario.manager (mkDate 10 30 0))
      Scenario.start
    = (Returned tt, Scenario.start).
Proof. repeat split. Qed.


(** The clock at 10:30:00. *)
Lemma cadence_30_fires_on_the_half_hour_witness :
  IndexMinutes.fires 30 true (mkDate 10 30 0) = true /\
  run Scenario.accepting
      (IndexHours.callback 2 true Scenario.manager (mkDate 10 30 0))
      Scenario.start
    = (Returned tt, Scenario.start).
Proof.
  destruct (cadence_30_fires_on_the_half_hour
              Scenario.accepting Scenario.manager Scenario.start 10 30 0
              ltac:(lia) ltac:(lia) ltac:(lia))
    as [[_ [_ [H30 _]]] [_ Hhours]].
  split; [exact H30 |].
  apply (Hhours 2 ltac:(lia)). discriminate.
Defined.
